(** * whatsapp_script: parsing exported chat logs into a table

    A shallow embedding of [whatsapp_script.py] together with the part of
    the Python runtime it calls ([str.strip], [str.split], [re] and the
    handful of pandas operations on a [DataFrame]).

    Modelling scope.
    - A Python [str] is a [string]; its characters are the code points
      U+0000..U+00FF (the type [ascii] read as Latin-1).
    - A pandas cell is [option string]: [None] stands for a missing value
      ([None] / [NaN]).
    - An exception is a value of [exn]; a call that can raise returns a
      [result].
    - Of the drawing of the chart (matplotlib) the model keeps what
      decides the outcome of [plot_senders_distribution]: the bar chart of
      counts without entry raises IndexError; otherwise the counts and the
      annotations are what the function shows.
    - A file is either absent or holds text that decodes: a path that
      exists but cannot be read as UTF-8 text is not represented. *)

From Stdlib Require Import Strings.String Strings.Ascii Lists.List Arith.Arith
  Arith.PeanoNat NArith.NArith Bool.Bool Lia Sorting.Permutation
  Sorting.Sorted Structures.OrderedTypeEx Classes.RelationClasses.
Import ListNotations.

Local Open Scope string_scope.
Local Open Scope list_scope.
Local Open Scope nat_scope.

(** String concatenation, written apart from list concatenation. *)
Infix "+++" := String.append (at level 60, right associativity).

(** ** Python exceptions and fallible results *)

Inductive exn : Type :=
| FileNotFoundError
| ValueError
| KeyError
| AttributeError
| IndexError
| ReError.

(** [Beyond] marks a run that leaves the part of the runtime modelled
    here (a search pattern whose syntax is not covered): the development
    says nothing about what Python does there. *)
Inductive result (A : Type) : Type :=
| Ok (a : A)
| Raise (e : exn)
| Beyond.
Arguments Ok {A} a.
Arguments Raise {A} e.
Arguments Beyond {A}.

Definition bind {A B : Type} (m : result A) (f : A -> result B) : result B :=
  match m with
  | Ok a => f a
  | Raise e => Raise e
  | Beyond => Beyond
  end.

Notation "x <- m ;; k" := (bind m (fun x => k))
  (at level 61, m at next level, right associativity).

(** ** The [str] methods used by the script *)

Module PyStr.

Definition newline : ascii := ascii_of_nat 10.

(** [str.isspace] on one character, for code points below 256:
    U+0009..U+000D, U+001C..U+0020, U+0085 and U+00A0. *)
Definition isspace (c : ascii) : bool :=
  let n := nat_of_ascii c in
  ((9 <=? n) && (n <=? 13)) || ((28 <=? n) && (n <=? 32))
  || (n =? 133) || (n =? 160).

Fixpoint lstrip (s : string) : string :=
  match s with
  | EmptyString => EmptyString
  | String c s' => if isspace c then lstrip s' else s
  end.

Fixpoint rstrip (s : string) : string :=
  match s with
  | EmptyString => EmptyString
  | String c s' =>
      match rstrip s' with
      | EmptyString => if isspace c then EmptyString else String c EmptyString
      | r => String c r
      end
  end.

(** [s.strip()] *)
Definition strip (s : string) : string := rstrip (lstrip s).

(** [s.split(sep)] for a one-character separator: every occurrence of
    [sep] cuts; the result is never empty. *)
Fixpoint split (sep : ascii) (s : string) : list string :=
  match s with
  | EmptyString => [EmptyString]
  | String c s' =>
      if Ascii.eqb c sep then EmptyString :: split sep s'
      else match split sep s' with
           | p :: ps => String c p :: ps
           | [] => [String c EmptyString]
           end
  end.

(** [sep.join(parts)] *)
Definition join (sep : string) (parts : list string) : string :=
  String.concat sep parts.

(** Simple lower-case mapping of a code point below 256: A..Z and the
    Latin-1 capitals U+00C0..U+00DE (except the multiplication sign
    U+00D7) move up by 32. *)
Definition lower (c : ascii) : ascii :=
  let n := nat_of_ascii c in
  if ((65 <=? n) && (n <=? 90))
     || ((192 <=? n) && (n <=? 222) && negb (n =? 215))
  then ascii_of_nat (n + 32) else c.

Fixpoint lower_str (s : string) : string :=
  match s with
  | EmptyString => EmptyString
  | String c s' => String (lower c) (lower_str s')
  end.

Fixpoint all (p : ascii -> bool) (s : string) : bool :=
  match s with
  | EmptyString => true
  | String c s' => p c && all p s'
  end.

Fixpoint mem (c : ascii) (s : string) : bool :=
  match s with
  | EmptyString => false
  | String d s' => Ascii.eqb c d || mem c s'
  end.

End PyStr.

(** ** The fragment of [re] the script exercises *)

Module Re.

(** One-character matchers. *)
Inductive charclass : Type :=
| Lit (c : ascii)        (* a literal character *)
| Dot.                   (* [.] : anything but a line feed *)

Inductive regex : Type :=
| Eps                              (* the empty pattern *)
| Bol                              (* [^] *)
| Eol                              (* [$] *)
| Chr (cc : charclass)
| Star (greedy : bool) (cc : charclass)   (* [x*] and [x*?] *)
| Group (i : nat) (r : regex)      (* capturing group number [i] *)
| Cat (r1 r2 : regex).

Definition captures := list (nat * string).

Fixpoint group (caps : captures) (i : nat) : option string :=
  match caps with
  | [] => None
  | (j, s) :: caps' => if Nat.eqb i j then Some s else group caps' i
  end.

(** [test ic cc c]: does character [c] match [cc]?  [ic] is the
    [re.IGNORECASE] flag. *)
Definition test (ic : bool) (cc : charclass) (c : ascii) : bool :=
  match cc with
  | Lit d => if ic then Ascii.eqb (PyStr.lower c) (PyStr.lower d)
             else Ascii.eqb c d
  | Dot => negb (Ascii.eqb c PyStr.newline)
  end.

(** The backtracking matcher, in continuation-passing style: a
    continuation receives the position reached, the text still to be
    read and the groups closed so far, and answers with the groups of
    the first complete match found, or [None] to make the matcher
    backtrack. *)
Definition cont := nat -> string -> captures -> option captures.

(** [x*?] : try the continuation first, take one more character only
    when it fails. *)
Fixpoint star_lazy (p : ascii -> bool) (k : cont)
         (pos : nat) (s : string) (caps : captures) : option captures :=
  match k pos s caps with
  | Some r => Some r
  | None =>
      match s with
      | EmptyString => None
      | String c s' => if p c then star_lazy p k (S pos) s' caps else None
      end
  end.

(** [x*] : take as many characters as possible, give them back one by
    one while the continuation fails. *)
Fixpoint star_greedy (p : ascii -> bool) (k : cont)
         (pos : nat) (s : string) (caps : captures) : option captures :=
  match s with
  | EmptyString => k pos s caps
  | String c s' =>
      if p c then
        match star_greedy p k (S pos) s' caps with
        | Some r => Some r
        | None => k pos s caps
        end
      else k pos s caps
  end.

Fixpoint exec (ic : bool) (r : regex) (k : cont) : cont :=
  match r with
  | Eps => k
  | Bol => fun pos s caps => if Nat.eqb pos 0 then k pos s caps else None
  | Eol => fun pos s caps =>
      match s with
      | EmptyString => k pos s caps
      | String c EmptyString =>
          if Ascii.eqb c PyStr.newline then k pos s caps else None
      | _ => None
      end
  | Chr cc => fun pos s caps =>
      match s with
      | String c s' => if test ic cc c then k (S pos) s' caps else None
      | EmptyString => None
      end
  | Star true cc => star_greedy (test ic cc) k
  | Star false cc => star_lazy (test ic cc) k
  | Group i r' => fun pos s caps =>
      exec ic r' (fun pos' s' caps' =>
                    k pos' s' ((i, substring 0 (pos' - pos) s) :: caps'))
           pos s caps
  | Cat r1 r2 => exec ic r1 (exec ic r2 k)
  end.

Definition accept : cont := fun _ _ caps => Some caps.

(** [re.match(r, s)] : a match anchored at position 0. *)
Definition rmatch (ic : bool) (r : regex) (s : string) : option captures :=
  exec ic r accept 0 s [].

(** [r.search(s) is not None] : a match starting at some position. *)
Fixpoint search_from (ic : bool) (r : regex) (pos : nat) (s : string) : bool :=
  match exec ic r accept pos s [] with
  | Some _ => true
  | None =>
      match s with
      | EmptyString => false
      | String _ s' => search_from ic r (S pos) s'
      end
  end.

Definition search (ic : bool) (r : regex) (s : string) : bool :=
  search_from ic r 0 s.

(** *** Compiling a pattern given as text

    Characters with a special meaning in a pattern. *)
Definition special : string := ".^$*+?{}[]\|()".

Definition is_special (c : ascii) : bool := PyStr.mem c special.

Inductive compiled : Type :=
| Compiled (r : regex)
| Invalid            (* [re.compile] raises [re.error] *)
| Unmodelled.        (* syntax outside the fragment modelled here *)

(** A run of ordinary characters and dots. *)
Fixpoint compile_plain (pat : string) : compiled :=
  match pat with
  | EmptyString => Compiled Eps
  | String c pat' =>
      if Ascii.eqb c "." then
        match compile_plain pat' with
        | Compiled r => Compiled (Cat (Chr Dot) r)
        | other => other
        end
      else if is_special c then Unmodelled
      else
        match compile_plain pat' with
        | Compiled r => Compiled (Cat (Chr (Lit c)) r)
        | other => other
        end
  end.

(** [re.compile(pat)] on the fragment: a pattern that opens with a
    repetition operator has nothing to repeat and is rejected; ordinary
    characters stand for themselves and [.] for any character but a line
    feed; any other use of a special character is left unmodelled. *)
Definition compile (pat : string) : compiled :=
  match pat with
  | String c _ =>
      if Ascii.eqb c "*" || Ascii.eqb c "+" || Ascii.eqb c "?"
      then Invalid else compile_plain pat
  | EmptyString => compile_plain pat
  end.

End Re.

(** ** [_parse_message] *)

(** The pattern of the source, piece by piece: start of text, an opening
    bracket, group 1 (lazy run of any characters), a closing bracket, a
    space, group 2 (lazy run), a colon, a space, group 3 (greedy run), end
    of text. *)
Definition pattern : Re.regex :=
  Re.Cat Re.Bol
 (Re.Cat (Re.Chr (Re.Lit "["))
 (Re.Cat (Re.Group 1 (Re.Star false Re.Dot))
 (Re.Cat (Re.Chr (Re.Lit "]"))
 (Re.Cat (Re.Chr (Re.Lit " "))
 (Re.Cat (Re.Group 2 (Re.Star false Re.Dot))
 (Re.Cat (Re.Chr (Re.Lit ":"))
 (Re.Cat (Re.Chr (Re.Lit " "))
 (Re.Cat (Re.Group 3 (Re.Star true Re.Dot))
         Re.Eol)))))))).

(** What [_parse_message] hands back: three values, each possibly [None]. *)
Definition parsed : Type := option string * option string * option string.

Definition _parse_message (message : string) : parsed :=
  match Re.rmatch false pattern (PyStr.strip message) with
  | Some caps => (Re.group caps 1, Re.group caps 2, Re.group caps 3)
  | None => (None, None, None)
  end.


(** ** The pandas operations used by the script *)

Module Pd.

Definition cell : Type := option string.

(** A frame: its column labels and its rows, each row carrying its index
    label.  Rows are expected to be as long as [columns]. *)
Record DataFrame : Type := mkDF {
  columns : list string;
  rows : list (nat * list cell)
}.

Fixpoint position (c : string) (cols : list string) : option nat :=
  match cols with
  | [] => None
  | d :: cols' =>
      if String.eqb c d then Some 0 else option_map S (position c cols')
  end.

Definition has_column (df : DataFrame) (c : string) : bool :=
  match position c (columns df) with Some _ => true | None => false end.

(** The cell of a row under column [c]. *)
Definition at_column (cols : list string) (c : string) (r : list cell) : cell :=
  match position c cols with
  | Some p => nth p r None
  | None => None
  end.

(** [pd.DataFrame(data, columns=cols)] for a list of 3-tuples: the rows
    are labelled 0, 1, 2, ... *)
Definition of_tuples (data : list (cell * cell * cell)) (cols : list string)
  : DataFrame :=
  {| columns := cols;
     rows := combine (seq 0 (length data))
                     (map (fun m => match m with (t, s, c) => [t; s; c] end) data) |}.

(** [df[c]] : one column, [KeyError] when there is none of that name. *)
Definition getitem (df : DataFrame) (c : string) : result (list cell) :=
  match position c (columns df) with
  | Some p => Ok (map (fun r => nth p (snd r) None) (rows df))
  | None => Raise KeyError
  end.

(** [df.c] : the same column by attribute access. *)
Definition getattr (df : DataFrame) (c : string) : result (list cell) :=
  match position c (columns df) with
  | Some p => Ok (map (fun r => nth p (snd r) None) (rows df))
  | None => Raise AttributeError
  end.

(** [df[[c1, ..., cn]]] : a new frame with these columns, in this order;
    [KeyError] when one of them is missing. *)
Definition select (df : DataFrame) (cs : list string) : result DataFrame :=
  if forallb (has_column df) cs
  then Ok {| columns := cs;
             rows := map (fun r => (fst r, map (fun c => at_column (columns df) c (snd r)) cs))
                         (rows df) |}
  else Raise KeyError.

(** [df[mask]] : the rows at which the boolean mask is true. *)
Fixpoint keep {A : Type} (xs : list A) (mask : list bool) : list A :=
  match xs, mask with
  | x :: xs', b :: mask' => if b then x :: keep xs' mask' else keep xs' mask'
  | _, _ => []
  end.

Definition getitem_mask (df : DataFrame) (mask : list bool) : DataFrame :=
  {| columns := columns df; rows := keep (rows df) mask |}.

(** [col.str.contains(pat, case=False, na=False)] : the pattern is
    compiled as a regular expression with [re.IGNORECASE] (before any cell
    is looked at), each string cell is searched, a missing cell gives
    [False]. *)
Definition str_contains (col : list cell) (pat : string) : result (list bool) :=
  match Re.compile pat with
  | Re.Compiled r =>
      Ok (map (fun x => match x with
                        | Some s => Re.search true r s
                        | None => false
                        end) col)
  | Re.Invalid => Raise ReError
  | Re.Unmodelled => Beyond
  end.

(** The frame [col.str.split(sep, expand=True)] returns: as many columns
    (labelled 0, 1, ...) as the longest split has parts, none for a column
    without rows; shorter rows are filled with missing values, a missing
    cell gives a row of missing values. *)
Record expanded : Type := mkExp {
  width : nat;
  cells : list (list cell)
}.

Definition split_cell (sep : ascii) (x : cell) : list cell :=
  match x with
  | Some s => map Some (PyStr.split sep s)
  | None => [None]
  end.

Definition pad (w : nat) (r : list cell) : list cell :=
  r ++ repeat None (w - length r).

Definition str_split_expand (sep : ascii) (col : list cell) : expanded :=
  let parts := map (split_cell sep) col in
  let w := fold_right Nat.max 0 (map (@length cell) parts) in
  {| width := w; cells := map (pad w) parts |}.

Fixpoint replace_nth {A : Type} (p : nat) (v : A) (l : list A) : list A :=
  match l, p with
  | [], _ => []
  | _ :: l', 0 => v :: l'
  | x :: l', S p' => x :: replace_nth p' v l'
  end.

Fixpoint map2 {A B C : Type} (f : A -> B -> C) (xs : list A) (ys : list B)
  : list C :=
  match xs, ys with
  | x :: xs', y :: ys' => f x y :: map2 f xs' ys'
  | _, _ => []
  end.

(** [df[c] = vals] : overwrite the column when it exists, else add it as
    the last column. *)
Definition set_column (df : DataFrame) (c : string) (vals : list cell)
  : DataFrame :=
  match position c (columns df) with
  | Some p =>
      {| columns := columns df;
         rows := map2 (fun r v => (fst r, replace_nth p v (snd r))) (rows df) vals |}
  | None =>
      {| columns := columns df ++ [c];
         rows := map2 (fun r v => (fst r, snd r ++ [v])) (rows df) vals |}
  end.

(** [df[keys] = value] for a frame [value] on the same index:
    [ValueError] ("Columns must be same length as key") unless [value] has
    exactly one column per key; then the keys are assigned one by one. *)
Definition setitem (df : DataFrame) (keys : list string) (value : expanded)
  : result DataFrame :=
  if Nat.eqb (width value) (length keys)
  then Ok (fold_left
             (fun d kj => set_column d (fst kj)
                            (map (fun r => nth (snd kj) r None) (cells value)))
             (combine keys (seq 0 (length keys))) df)
  else Raise ValueError.

(** Sorted set of strings, in the order of [String.compare] (code point
    by code point). *)
Fixpoint insert (k : string) (ks : list string) : list string :=
  match ks with
  | [] => [k]
  | x :: ks' =>
      match String.compare k x with
      | Lt => k :: ks
      | Eq => ks
      | Gt => x :: insert k ks'
      end
  end.

Fixpoint present (col : list cell) : list string :=
  match col with
  | [] => []
  | Some s :: col' => s :: present col'
  | None :: col' => present col'
  end.

(** [df.groupby(key).size()] : one entry per distinct non-missing value
    of the key column, the keys sorted, each with the number of rows that
    carry it. *)
Definition groupby_size (df : DataFrame) (key : string)
  : result (list (string * nat)) :=
  col <- getitem df key ;;
  let vals := present col in
  Ok (map (fun k => (k, count_occ string_dec vals k))
          (fold_right insert [] vals)).

End Pd.

(** ** The file system and [readlines] *)

(** The text of each file, already decoded; [None] for a path that does
    not exist, where [open] raises FileNotFoundError.  Paths that exist
    without being readable UTF-8 text (a directory, a file without read
    permission, bytes that do not decode) are not represented. *)
Definition filesystem : Type := string -> option string.

Definition carriage_return : ascii := ascii_of_nat 13.

(** Universal newlines, as text mode reads them: "\r\n" and a lone "\r"
    become "\n". *)
Fixpoint translate_newlines (s : string) : string :=
  match s with
  | EmptyString => EmptyString
  | String c s' =>
      if Ascii.eqb c carriage_return then
        String PyStr.newline
          match s' with
          | String d s'' =>
              if Ascii.eqb d PyStr.newline then translate_newlines s''
              else translate_newlines s'
          | EmptyString => EmptyString
          end
      else String c (translate_newlines s')
  end.

(** [f.readlines()] : the lines, each with its line feed when it has one. *)
Fixpoint readlines (s : string) : list string :=
  match s with
  | EmptyString => []
  | String c s' =>
      if Ascii.eqb c PyStr.newline then String c EmptyString :: readlines s'
      else match readlines s' with
           | l :: ls => String c l :: ls
           | [] => [String c EmptyString]
           end
  end.

(** ** [_split_and_reorder_timestamp], [load_chat_data] *)

Definition _split_and_reorder_timestamp (df : Pd.DataFrame) : result Pd.DataFrame :=
  ts <- Pd.getattr df "Timestamp" ;;
  df <- Pd.setitem df ["Date"; "Time"] (Pd.str_split_expand "," ts) ;;
  Pd.select df ["Date"; "Time"; "Sender"; "Content"].

Definition is_not_None (x : option string) : bool :=
  match x with Some _ => true | None => false end.

(** The table assembled from the lines of a file, before the optional
    split (lines 124-131 of the source). *)
Definition parsed_frame (chat_data : list string) : Pd.DataFrame :=
  let parsed_messages := map _parse_message chat_data in
  let parsed_messages :=
    filter (fun msg => is_not_None (fst (fst msg))) parsed_messages in
  Pd.of_tuples parsed_messages ["Timestamp"; "Sender"; "Content"].

Definition load_chat_data (fs : filesystem) (file_path : string)
           (split_timestamp : bool) : result Pd.DataFrame :=
  match fs "_chat.txt" with
  | None => Raise FileNotFoundError
  | Some text =>
      let chat_data := readlines (translate_newlines text) in
      let df := parsed_frame chat_data in
      if split_timestamp then _split_and_reorder_timestamp df else Ok df
  end.

(** ** [plot_senders_distribution] *)

(** What the function shows: the printed counts and, for each bar, the
    annotation (text, x, y). *)
Record report : Type := mkReport {
  sender_message_count : list (string * nat);
  annotations : list (nat * nat * nat)
}.

Fixpoint enumerate {A : Type} (i : nat) (l : list A) : list (nat * A) :=
  match l with
  | [] => []
  | x :: l' => (i, x) :: enumerate (S i) l'
  end.

(** The counts are computed and printed; then [.plot(kind="barh")] draws
    them, and raises IndexError when there is no entry to draw (no row
    with a sender); then every bar is annotated. *)
Definition plot_senders_distribution (df : Pd.DataFrame) : result report :=
  counts <- Pd.groupby_size df "Sender" ;;
  match counts with
  | [] => Raise IndexError
  | _ :: _ =>
      Ok {| sender_message_count := counts;
            annotations := map (fun iv => (snd iv, snd iv, fst iv))
                               (enumerate 0 (map snd counts)) |}
  end.

(** ** [count_word_usage] *)

Definition count_word_usage (word : string) (df : Pd.DataFrame)
  : result Pd.DataFrame :=
  content <- Pd.getitem df "Content" ;;
  mask <- Pd.str_contains content word ;;
  let filtered_df := Pd.getitem_mask df mask in
  Pd.select filtered_df ["Date"; "Sender"; "Content"].

(** ** Vocabulary of the statements *)

Definition no_newline (s : string) : Prop :=
  PyStr.mem PyStr.newline s = false.

(** A line that parses: once stripped it reads "[T] W: C" and holds no
    line feed. *)
Definition well_formed (line : string) : Prop :=
  exists T W C,
    PyStr.strip line = "[" +++ T +++ "] " +++ W +++ ": " +++ C
    /\ no_newline (PyStr.strip line).

(** The stripped text [s] reads "[T] W: C", the timestamp [T] ending at
    the first "] " and the sender [W] at the first ": " after it. *)
Definition reads_as (s T W C : string) : Prop :=
  s = "[" +++ T +++ "] " +++ W +++ ": " +++ C
  /\ no_newline s
  /\ index 0 "] " (T +++ "] " +++ W +++ ": " +++ C) = Some (String.length T)
  /\ index 0 ": " (W +++ ": " +++ C) = Some (String.length W).

(** The same, decided by running the parser. *)
Definition well_formedb (line : string) : bool :=
  is_not_None (fst (fst (_parse_message line))).

(** [text] contains [word] when letter case is ignored. *)
Definition ci_contains (word text : string) : Prop :=
  exists pre mid post,
    text = pre +++ mid +++ post
    /\ PyStr.lower_str mid = PyStr.lower_str word.

(** A search term without any character that is special in a pattern. *)
Definition plain (word : string) : bool :=
  PyStr.all (fun c => negb (Re.is_special c)) word.

(** The row of the search result for a row of the table. *)
Definition hit (cols : list string) (r : nat * list Pd.cell) : nat * list Pd.cell :=
  (fst r, [Pd.at_column cols "Date" (snd r);
           Pd.at_column cols "Sender" (snd r);
           Pd.at_column cols "Content" (snd r)]).

(** Number of rows whose sender is [s]. *)
Definition rows_of_sender (df : Pd.DataFrame) (s : string) : nat :=
  length (filter
            (fun r => match Pd.at_column (Pd.columns df) "Sender" (snd r) with
                      | Some x => String.eqb x s
                      | None => false
                      end)
            (Pd.rows df)).

(** Strict order of strings, code point by code point. *)
Definition str_lt (a b : string) : Prop := String.compare a b = Lt.

(** The columns of a table as loaded, before and after the split. *)
Definition loaded_columns : list string := ["Timestamp"; "Sender"; "Content"].
Definition split_columns : list string := ["Date"; "Time"; "Sender"; "Content"].

(** The row of the split table for a row of three cells: the first two
    parts of the split timestamp, then sender and content. *)
Definition split_row (r : nat * list Pd.cell) : nat * list Pd.cell :=
  let parts := Pd.split_cell "," (nth 0 (snd r) None) in
  (fst r, [nth 0 parts None; nth 1 parts None;
           nth 1 (snd r) None; nth 2 (snd r) None]).

(** Number of parts the timestamp of a row splits into. *)
Definition row_width (r : nat * list Pd.cell) : nat :=
  length (Pd.split_cell "," (nth 0 (snd r) None)).

(** Number of comma-separated parts in the timestamp of a line. *)
Definition comma_parts (line : string) : nat :=
  match fst (fst (_parse_message line)) with
  | Some T => length (PyStr.split "," T)
  | None => 1
  end.

(** The largest such number over a list of lines, 0 for no line. *)
Definition widest (lines : list string) : nat :=
  fold_right Nat.max 0 (map comma_parts lines).

(** The lines of a text that parse. *)
Definition retained (text : string) : list string :=
  filter well_formedb (readlines (translate_newlines text)).

(** The three cells a line contributes to the table. *)
Definition line_cells (line : string) : list Pd.cell :=
  match _parse_message line with
  | (t, w, c) => [t; w; c]
  end.

(** A file system holding just the file the loader opens. *)
Definition only_chat (text : string) : filesystem :=
  fun path => if String.eqb path "_chat.txt" then Some text else None.

(** A file system holding just one file, under any name. *)
Definition only_file (name text : string) : filesystem :=
  fun path => if String.eqb path name then Some text else None.

Definition line_feed : string := String PyStr.newline "".

(** A table without rows. *)
Definition no_rows (cols : list string) : Pd.DataFrame :=
  {| Pd.columns := cols; Pd.rows := [] |}.

Definition search_columns : list string := ["Date"; "Sender"; "Content"].

(** The pattern a plain search term compiles to: its characters, one
    after the other. *)
Fixpoint literal (word : string) : Re.regex :=
  match word with
  | EmptyString => Re.Eps
  | String c word' => Re.Cat (Re.Chr (Re.Lit c)) (literal word')
  end.

(** [text] starts with [word], letter case ignored. *)
Fixpoint ci_prefixb (word text : string) : bool :=
  match word, text with
  | EmptyString, _ => true
  | String a word', String b text' =>
      Ascii.eqb (PyStr.lower b) (PyStr.lower a) && ci_prefixb word' text'
  | String _ _, EmptyString => false
  end.

(** [text] contains [word], letter case ignored (decides [ci_contains]). *)
Fixpoint ci_containsb (word text : string) : bool :=
  ci_prefixb word text
  || match text with
     | EmptyString => false
     | String _ text' => ci_containsb word text'
     end.

(** Does the content of a row contain [word], letter case ignored?  A
    missing content does not. *)
Definition mentions (cols : list string) (word : string)
           (r : nat * list Pd.cell) : bool :=
  match Pd.at_column cols "Content" (snd r) with
  | Some s => ci_containsb word s
  | None => false
  end.

(** The table of the example in the specification. *)
Definition greetings : Pd.DataFrame :=
  {| Pd.columns := split_columns;
     Pd.rows :=
       [(0, [Some "2023-01-01"; Some " 12:00 PM"; Some "Alice"; Some "Hello there"]);
        (1, [Some "2023-01-01"; Some " 12:01 PM"; Some "Bob"; Some "bye"]);
        (2, [Some "2023-01-02"; Some " 9:30 AM"; Some "Alice"; Some "say hello!"])] |}.

(** ** Further vocabulary *)

(** Text made of white space only. *)
Definition blank (s : string) : bool := PyStr.all PyStr.isspace s.

(** [sep] occurs somewhere in [s]. *)
Definition occurs (sep s : string) : Prop :=
  exists a b, s = a +++ sep +++ b.

(** The line a message is written as. *)
Definition format_message (T W C : string) : string :=
  "[" +++ T +++ "] " +++ W +++ ": " +++ C.

(** Does the row carry a sender? *)
Definition has_sender (cols : list string) (r : nat * list Pd.cell) : bool :=
  is_not_None (Pd.at_column cols "Sender" (snd r)).

(** The Timestamp cells of a table, row by row. *)
Definition timestamps (df : Pd.DataFrame) : list Pd.cell :=
  map (fun r => Pd.at_column (Pd.columns df) "Timestamp" (snd r)) (Pd.rows df).


(** Is there a row that carries a sender? *)
Definition some_sender (df : Pd.DataFrame) : bool :=
  existsb (has_sender (Pd.columns df)) (Pd.rows df).

Example parse_docstring :
  _parse_message "[2023-01-01, 12:00 PM] Alice: Hello, how are you?"
  = (Some "2023-01-01, 12:00 PM", Some "Alice", Some "Hello, how are you?").
Proof. reflexivity. Qed.

Example parse_invalid :
  _parse_message "Invalid message format" = (None, None, None).
Proof. reflexivity. Qed.

(** ** Facts about strings *)

Module StrFacts.

Lemma append_nil_r (s : string) : s +++ "" = s.
Proof. induction s; simpl; congruence. Qed.

Lemma append_assoc (a b c : string) : (a +++ b) +++ c = a +++ b +++ c.
Proof. induction a; simpl; congruence. Qed.

Lemma length_append (a b : string) :
  String.length (a +++ b) = String.length a + String.length b.
Proof. induction a; simpl; congruence. Qed.

Lemma substring_prefix (a b : string) :
  substring 0 (String.length a) (a +++ b) = a.
Proof.
  induction a as [|c a IH]; simpl.
  - destruct b; reflexivity.
  - now rewrite IH.
Qed.

Lemma mem_append (c : ascii) (a b : string) :
  PyStr.mem c (a +++ b) = PyStr.mem c a || PyStr.mem c b.
Proof.
  induction a as [|d a IH]; simpl; [reflexivity|].
  rewrite IH. now rewrite orb_assoc.
Qed.

Lemma all_append (p : ascii -> bool) (a b : string) :
  PyStr.all p (a +++ b) = PyStr.all p a && PyStr.all p b.
Proof.
  induction a as [|d a IH]; simpl; [reflexivity|].
  rewrite IH. now rewrite andb_assoc.
Qed.

Lemma all_dot_no_newline (ic : bool) (s : string) :
  PyStr.all (Re.test ic Re.Dot) s = negb (PyStr.mem PyStr.newline s).
Proof.
  induction s as [|c s IH]; simpl; [reflexivity|].
  rewrite IH, negb_orb. now rewrite Ascii.eqb_sym.
Qed.

Lemma prefix_append (sep b : string) : prefix sep (sep +++ b) = true.
Proof.
  induction sep as [|c sep IH]; simpl.
  - destruct b; reflexivity.
  - destruct (ascii_dec c c); [assumption|congruence].
Qed.

Lemma prefix_split (sep s : string) :
  prefix sep s = true -> exists post, s = sep +++ post.
Proof.
  revert s. induction sep as [|c sep IH]; intros s H.
  - exists s. reflexivity.
  - destruct s as [|d s]; simpl in H; [discriminate|].
    destruct (ascii_dec c d) as [->|]; [|discriminate].
    destruct (IH _ H) as [post ->]. now exists post.
Qed.

Lemma index_cons (sep : string) (c : ascii) (s : string) :
  index 0 sep (String c s)
  = if prefix sep (String c s) then Some 0 else option_map S (index 0 sep s).
Proof. simpl. destruct (index 0 sep s); reflexivity. Qed.

(** Where the separator occurs, [index] finds it, there or earlier. *)
Lemma index_app (sep a b : string) :
  exists n, index 0 sep (a +++ sep +++ b) = Some n /\ n <= String.length a.
Proof.
  induction a as [|c a [n [IH Hn]]].
  - exists 0. split; [|simpl; lia]. simpl (_ +++ _).
    destruct (sep +++ b) eqn:E.
    + destruct sep; [reflexivity|discriminate].
    + rewrite index_cons, <- E, prefix_append. reflexivity.
  - simpl (_ +++ _). rewrite index_cons, IH.
    destruct (prefix sep _).
    + exists 0. split; [reflexivity|lia].
    + exists (S n). split; [reflexivity|simpl; lia].
Qed.

(** What [index] finds is an occurrence. *)
Lemma index_split (sep s : string) : forall n,
  index 0 sep s = Some n ->
  exists pre post, s = pre +++ sep +++ post /\ String.length pre = n.
Proof.
  induction s as [|c s IH]; intros n H.
  - simpl in H. destruct sep; [|discriminate]. injection H as <-.
    now exists "", "".
  - rewrite index_cons in H. destruct (prefix sep (String c s)) eqn:P.
    + injection H as <-. destruct (prefix_split _ _ P) as [post E].
      exists "", post. now split.
    + destruct (index 0 sep s) as [m|]; [|discriminate].
      injection H as <-. destruct (IH m eq_refl) as (pre & post & -> & <-).
      now exists (String c pre), post.
Qed.

(** What [index] finds is the first occurrence. *)
Lemma index_first (sep pre : string) : forall tail,
  index 0 sep (pre +++ tail) = Some (String.length pre) ->
  forall a c b, pre = a +++ String c b ->
                prefix sep (String c b +++ tail) = false.
Proof.
  induction pre as [|d pre IH]; intros tail H a c b E.
  - destruct a; discriminate.
  - simpl (_ +++ _) in H. rewrite index_cons in H.
    destruct (prefix sep (String d (pre +++ tail))) eqn:P; [discriminate|].
    destruct (index 0 sep (pre +++ tail)) as [m|] eqn:I; [|discriminate].
    simpl in H. injection H as ->.
    destruct a as [|a0 a]; simpl in E; injection E as -> ->.
    + exact P.
    + now apply (IH tail I a c b).
Qed.

Lemma app_split (a : string) : forall b c d,
  a +++ b = c +++ d -> String.length a <= String.length c ->
  exists e, c = a +++ e /\ b = e +++ d.
Proof.
  induction a as [|x a IH]; intros b c d E L.
  - now exists c.
  - destruct c as [|y c]; simpl in L; [lia|].
    simpl in E. injection E as -> E.
    destruct (IH _ _ _ E) as (e & -> & ->); [lia|]. now exists e.
Qed.

Lemma split_no_sep (sep : ascii) (s : string) :
  PyStr.mem sep s = false -> PyStr.split sep s = [s].
Proof.
  induction s as [|c s IH]; simpl; [reflexivity|].
  intro H. apply orb_false_iff in H as [Hc Hs].
  rewrite Ascii.eqb_sym, Hc, (IH Hs). reflexivity.
Qed.

Lemma split_at (sep : ascii) (a rest : string) :
  PyStr.mem sep a = false ->
  PyStr.split sep (a +++ String sep rest) = a :: PyStr.split sep rest.
Proof.
  induction a as [|c a IH]; simpl.
  - now rewrite Ascii.eqb_refl.
  - intro H. apply orb_false_iff in H as [Hc Ha].
    rewrite Ascii.eqb_sym, Hc, (IH Ha). reflexivity.
Qed.

Lemma split_nonempty (sep : ascii) (s : string) :
  exists p ps, PyStr.split sep s = p :: ps.
Proof.
  induction s as [|c s (p & ps & IH)]; simpl; [now eexists _, _|].
  destruct (Ascii.eqb c sep); [now eexists _, _|].
  rewrite IH. now eexists _, _.
Qed.

Lemma mem_false_append (c : ascii) (a b : string) :
  PyStr.mem c (a +++ b) = false ->
  PyStr.mem c a = false /\ PyStr.mem c b = false.
Proof. rewrite mem_append. apply orb_false_iff. Qed.

(** Stripped text does not end with white space. *)
Lemma rstrip_last (s a : string) (c : ascii) :
  PyStr.rstrip s = a +++ String c "" -> PyStr.isspace c = false.
Proof.
  revert a. induction s as [|d s IH]; intros a H; simpl in H.
  - destruct a; discriminate.
  - destruct (PyStr.rstrip s) as [|e r] eqn:R.
    + destruct (PyStr.isspace d) eqn:Sp.
      * destruct a; discriminate.
      * destruct a as [|a0 a]; simpl in H.
        -- now injection H as <-.
        -- injection H as _ H. destruct a; discriminate.
    + destruct a as [|a0 a]; simpl in H; [discriminate|].
      injection H as _ H. now apply (IH a).
Qed.

End StrFacts.

(** ** The matcher on runs of characters *)

Module ReFacts.
Import StrFacts.

Section Runs.
Variable p : ascii -> bool.
Variable k : Re.cont.

(** A successful lazy run read some prefix accepted by [p] and then
    ran its continuation with success. *)
Lemma star_lazy_sound (s : string) : forall pos caps r,
  Re.star_lazy p k pos s caps = Some r ->
  exists pre rest,
    s = pre +++ rest /\ PyStr.all p pre = true
    /\ k (pos + String.length pre) rest caps = Some r.
Proof.
  induction s as [|c s IH]; intros pos caps r H; simpl in H.
  - destruct (k pos "" caps) eqn:E; [|discriminate].
    exists "", "". simpl. rewrite Nat.add_0_r. split; [reflexivity|].
    split; [reflexivity|]. congruence.
  - destruct (k pos (String c s) caps) eqn:E.
    + exists "", (String c s). simpl. rewrite Nat.add_0_r.
      repeat split; congruence.
    + destruct (p c) eqn:Pc; [|discriminate].
      destruct (IH _ _ _ H) as (pre & rest & -> & Hall & Hk).
      exists (String c pre), rest. simpl. rewrite Pc, Hall.
      repeat split. now rewrite Nat.add_succ_r.
Qed.

(** A lazy run stops at the first prefix after which the continuation
    succeeds. *)
Lemma star_lazy_first (pre : string) : forall rest pos caps r,
  PyStr.all p pre = true ->
  (forall a c b, pre = a +++ String c b ->
                 k (pos + String.length a) (String c b +++ rest) caps = None) ->
  k (pos + String.length pre) rest caps = Some r ->
  Re.star_lazy p k pos (pre +++ rest) caps = Some r.
Proof.
  induction pre as [|c pre IH]; intros rest pos caps r Hall Hnone Hk; simpl.
  - simpl in Hk. rewrite Nat.add_0_r in Hk.
    destruct rest; simpl; now rewrite Hk.
  - simpl in Hall. apply andb_true_iff in Hall as [Pc Hall].
    pose proof (Hnone "" c pre eq_refl) as H0. simpl in H0.
    rewrite Nat.add_0_r in H0. rewrite H0, Pc.
    apply IH; [assumption| |].
    + intros a d b ->. specialize (Hnone (String c a) d b eq_refl).
      simpl in Hnone. now rewrite Nat.add_succ_r in Hnone.
    + simpl in Hk. now rewrite Nat.add_succ_r in Hk.
Qed.

Lemma star_greedy_sound (s : string) : forall pos caps r,
  Re.star_greedy p k pos s caps = Some r ->
  exists pre rest,
    s = pre +++ rest /\ PyStr.all p pre = true
    /\ k (pos + String.length pre) rest caps = Some r.
Proof.
  induction s as [|c s IH]; intros pos caps r H; simpl in H.
  - exists "", "". simpl. rewrite Nat.add_0_r. auto.
  - assert (Hhere : k pos (String c s) caps = Some r ->
                    exists pre rest, String c s = pre +++ rest
                      /\ PyStr.all p pre = true
                      /\ k (pos + String.length pre) rest caps = Some r).
    { intro E. exists "", (String c s). simpl.
      rewrite Nat.add_0_r. auto. }
    destruct (p c) eqn:Pc; [|auto].
    destruct (Re.star_greedy p k (S pos) s caps) eqn:E; [|auto].
    injection H as ->.
    destruct (IH _ _ _ E) as (pre & rest & -> & Hall & Hk).
    exists (String c pre), rest. simpl. rewrite Pc, Hall.
    repeat split. now rewrite Nat.add_succ_r.
Qed.

(** A greedy run over text accepted throughout first tries the whole
    text. *)
Lemma star_greedy_all (s : string) : forall pos caps r,
  PyStr.all p s = true ->
  k (pos + String.length s) "" caps = Some r ->
  Re.star_greedy p k pos s caps = Some r.
Proof.
  induction s as [|c s IH]; intros pos caps r Hall Hk; simpl in *.
  - now rewrite Nat.add_0_r in Hk.
  - apply andb_true_iff in Hall as [Pc Hall]. rewrite Pc.
    rewrite (IH (S pos) caps r Hall); [reflexivity|].
    now rewrite Nat.add_succ_r in Hk.
Qed.

End Runs.

Lemma substring_reached (pos : nat) (pre rest : string) :
  substring 0 (pos + String.length pre - pos) (pre +++ rest) = pre.
Proof.
  replace (pos + String.length pre - pos) with (String.length pre) by lia.
  apply substring_prefix.
Qed.

Section Groups.
Variable i : nat.
Variables x y : ascii.
Variable k : Re.cont.

(** Two literal characters fail where the text does not start with
    them. *)
Lemma two_literals_fail (pos : nat) (s : string) (caps : Re.captures) :
  prefix (String x (String y "")) s = false ->
  Re.exec false (Re.Chr (Re.Lit x))
          (Re.exec false (Re.Chr (Re.Lit y)) k) pos s caps = None.
Proof.
  intro P. destruct s as [|c s]; [reflexivity|]. cbn.
  destruct (Ascii.eqb_spec c x) as [->|]; [|reflexivity].
  destruct s as [|d s]; [reflexivity|].
  destruct (Ascii.eqb_spec d y) as [->|]; [|reflexivity].
  exfalso. simpl in P.
  destruct (ascii_dec x x); [|congruence].
  destruct (ascii_dec y y); [|congruence].
  destruct s; simpl in P; discriminate.
Qed.

(** A lazy group followed by two literal characters closes at their
    first occurrence, when the rest of the pattern matches from
    there. *)
Lemma lazy_group_first (pre tail : string) (pos : nat)
      (caps r : Re.captures) :
  PyStr.all (Re.test false Re.Dot) pre = true ->
  index 0 (String x (String y "")) (pre +++ String x (String y tail))
  = Some (String.length pre) ->
  k (S (S (pos + String.length pre))) tail ((i, pre) :: caps) = Some r ->
  Re.exec false (Re.Group i (Re.Star false Re.Dot))
          (Re.exec false (Re.Chr (Re.Lit x))
                   (Re.exec false (Re.Chr (Re.Lit y)) k))
          pos (pre +++ String x (String y tail)) caps = Some r.
Proof.
  intros Hall Hidx Hk. cbn [Re.exec].
  apply star_lazy_first; [assumption| |].
  - intros a c b E. apply two_literals_fail.
    now apply (index_first _ _ _ Hidx a c b).
  - rewrite substring_reached. cbn.
    now rewrite !Ascii.eqb_refl.
Qed.

Lemma lazy_group_sound (s : string) (pos : nat) (caps r : Re.captures) :
  Re.exec false (Re.Group i (Re.Star false Re.Dot))
          (Re.exec false (Re.Chr (Re.Lit x))
                   (Re.exec false (Re.Chr (Re.Lit y)) k))
          pos s caps = Some r ->
  exists pre tail,
    s = pre +++ String x (String y tail)
    /\ PyStr.all (Re.test false Re.Dot) pre = true
    /\ k (S (S (pos + String.length pre))) tail ((i, pre) :: caps) = Some r.
Proof.
  cbn [Re.exec]. intro H.
  apply star_lazy_sound in H as (pre & rest & -> & Hall & H).
  rewrite substring_reached in H.
  destruct rest as [|c rest]; [discriminate|]. cbn in H.
  destruct (Ascii.eqb_spec c x) as [->|]; [|discriminate].
  destruct rest as [|d rest]; [discriminate|].
  destruct (Ascii.eqb_spec d y) as [->|]; [|discriminate].
  now exists pre, rest.
Qed.

(** A greedy group before the end of the text takes all of a text
    without line feed. *)
Lemma greedy_group_all (s : string) (pos : nat) (caps r : Re.captures) :
  PyStr.all (Re.test false Re.Dot) s = true ->
  k (pos + String.length s) "" ((i, s) :: caps) = Some r ->
  Re.exec false (Re.Group i (Re.Star true Re.Dot))
          (Re.exec false Re.Eol k) pos s caps = Some r.
Proof.
  intros Hall Hk. cbn [Re.exec].
  apply star_greedy_all; [assumption|].
  pose proof (substring_reached pos s "") as E.
  rewrite append_nil_r in E. now rewrite E.
Qed.

Lemma greedy_group_sound (s : string) (pos : nat) (caps r : Re.captures) :
  Re.exec false (Re.Group i (Re.Star true Re.Dot))
          (Re.exec false Re.Eol k) pos s caps = Some r ->
  exists pre rest,
    s = pre +++ rest
    /\ PyStr.all (Re.test false Re.Dot) pre = true
    /\ (rest = "" \/ rest = String PyStr.newline "")
    /\ k (pos + String.length pre) rest ((i, pre) :: caps) = Some r.
Proof.
  cbn [Re.exec]. intro H.
  apply star_greedy_sound in H as (pre & rest & -> & Hall & H).
  rewrite substring_reached in H.
  exists pre, rest.
  destruct rest as [|c [|d rest]]; cbn beta iota in H; [auto| |discriminate].
  destruct (Ascii.eqb_spec c PyStr.newline) as [->|]; [auto|discriminate].
Qed.

End Groups.

End ReFacts.

(** ** [_parse_message] *)

Module ParseFacts.
Import StrFacts ReFacts.

Lemma rmatch_unfold (s : string) :
  Re.rmatch false pattern s
  = match s with
    | String c r =>
        if Ascii.eqb c "[" then
          Re.exec false (Re.Group 1 (Re.Star false Re.Dot))
            (Re.exec false (Re.Chr (Re.Lit "]"))
            (Re.exec false (Re.Chr (Re.Lit " "))
            (Re.exec false (Re.Group 2 (Re.Star false Re.Dot))
            (Re.exec false (Re.Chr (Re.Lit ":"))
            (Re.exec false (Re.Chr (Re.Lit " "))
            (Re.exec false (Re.Group 3 (Re.Star true Re.Dot))
            (Re.exec false Re.Eol Re.accept)))))))
            1 r []
        else None
    | EmptyString => None
    end.
Proof. destruct s; reflexivity. Qed.

Lemma no_newline_parts (T W C : string) :
  no_newline ("[" +++ T +++ "] " +++ W +++ ": " +++ C) ->
  PyStr.all (Re.test false Re.Dot) T = true /\ PyStr.all (Re.test false Re.Dot) W = true /\ PyStr.all (Re.test false Re.Dot) C = true.
Proof.
  unfold no_newline. intro H.
  change ("[" +++ T +++ "] " +++ W +++ ": " +++ C)
    with (String "[" (T +++ "] " +++ W +++ ": " +++ C)) in H.
  simpl in H.
  apply mem_false_append in H as [HT H].
  apply (mem_false_append _ "] ") in H as [_ H].
  apply mem_false_append in H as [HW H].
  apply (mem_false_append _ ": ") in H as [_ HC].
  rewrite !all_dot_no_newline, HT, HW, HC. auto.
Qed.

Lemma parts_no_newline (T W C : string) :
  PyStr.all (Re.test false Re.Dot) T = true -> PyStr.all (Re.test false Re.Dot) W = true -> PyStr.all (Re.test false Re.Dot) C = true ->
  no_newline ("[" +++ T +++ "] " +++ W +++ ": " +++ C).
Proof.
  rewrite !all_dot_no_newline. intros HT HW HC.
  apply negb_true_iff in HT, HW, HC. unfold no_newline.
  change ("[" +++ T +++ "] " +++ W +++ ": " +++ C)
    with ("[" +++ T +++ "] " +++ W +++ ": " +++ C).
  rewrite (mem_append _ "["), mem_append, (mem_append _ "] "), mem_append,
    (mem_append _ ": "), HT, HW, HC.
  reflexivity.
Qed.

(** A text that reads "[T] W: C" by first separators matches, and the
    groups are T, W and C. *)
Lemma rmatch_first (s T W C : string) :
  reads_as s T W C ->
  Re.rmatch false pattern s = Some [(3, C); (2, W); (1, T)].
Proof.
  intros (-> & Hnl & HT & HW).
  destruct (no_newline_parts _ _ _ Hnl) as (DT & DW & DC).
  rewrite rmatch_unfold.
  change ("[" +++ T +++ "] " +++ W +++ ": " +++ C)
    with (String "[" (T +++ "] " +++ W +++ ": " +++ C)).
  cbv beta iota. rewrite Ascii.eqb_refl.
  apply lazy_group_first; [assumption|assumption|].
  apply lazy_group_first; [assumption|assumption|].
  apply greedy_group_all; [assumption|]. reflexivity.
Qed.

(** Whatever matches reads "[T] W: C", up to a final line feed. *)
Lemma rmatch_sound (s : string) (caps : Re.captures) :
  Re.rmatch false pattern s = Some caps ->
  exists T W C,
    (s = "[" +++ T +++ "] " +++ W +++ ": " +++ C
     \/ s = "[" +++ T +++ "] " +++ W +++ ": " +++ C +++ String PyStr.newline "")
    /\ PyStr.all (Re.test false Re.Dot) T = true /\ PyStr.all (Re.test false Re.Dot) W = true /\ PyStr.all (Re.test false Re.Dot) C = true
    /\ caps = [(3, C); (2, W); (1, T)].
Proof.
  rewrite rmatch_unfold. destruct s as [|c r]; [discriminate|].
  destruct (Ascii.eqb_spec c "[") as [->|]; [|discriminate].
  intro H.
  apply lazy_group_sound in H as (T & r1 & -> & DT & H).
  apply lazy_group_sound in H as (W & r2 & -> & DW & H).
  apply greedy_group_sound in H as (C & r3 & -> & DC & Hend & H).
  injection H as <-. exists T, W, C.
  repeat split; try assumption.
  destruct Hend as [-> | ->]; [left|right]; simpl;
    now rewrite ?append_nil_r.
Qed.

(** A text of the shape "[T] W: C" has such a reading by first
    separators. *)
Lemma first_reading (s T W C : string) :
  s = "[" +++ T +++ "] " +++ W +++ ": " +++ C -> no_newline s ->
  exists T' W' C', reads_as s T' W' C'.
Proof.
  intros -> Hnl.
  destruct (index_app "] " T (W +++ ": " +++ C)) as (n & I1 & Hn).
  destruct (index_split _ _ _ I1) as (T' & r1 & E1 & L1).
  assert (E1' : (T +++ "] " +++ W) +++ ": " +++ C = (T' +++ "] ") +++ r1).
  { rewrite !append_assoc. exact E1. }
  symmetry in E1'. apply app_split in E1' as (e & Ee & ->).
  2:{ rewrite !length_append. simpl. lia. }
  destruct (index_app ": " e C) as (m & I2 & _).
  destruct (index_split _ _ _ I2) as (W' & C' & E2 & L2).
  exists T', W', C'. unfold reads_as.
  assert (E : T +++ "] " +++ W +++ ": " +++ C
              = T' +++ "] " +++ W' +++ ": " +++ C').
  { rewrite E1. now rewrite <- E2. }
  rewrite <- E, I1, L1, <- E2, I2, L2. repeat split. assumption.
Qed.

Lemma strip_no_final_newline (line a : string) :
  PyStr.strip line <> a +++ String PyStr.newline "".
Proof.
  intro E. apply rstrip_last in E. discriminate.
Qed.

(** The parser answers with three strings or with three [None]. *)
Lemma parse_all_or_nothing (line : string) :
  _parse_message line = (None, None, None)
  \/ exists T W C, _parse_message line = (Some T, Some W, Some C)
                   /\ reads_as (PyStr.strip line) T W C.
Proof.
  unfold _parse_message.
  destruct (Re.rmatch false pattern (PyStr.strip line)) as [caps|] eqn:M;
    [right|now left].
  destruct (rmatch_sound _ _ M) as (T & W & C & Hs & DT & DW & DC & _).
  destruct Hs as [Hs|Hs].
  - destruct (first_reading _ _ _ _ Hs) as (T' & W' & C' & R).
    { rewrite Hs. now apply parts_no_newline. }
    exists T', W', C'. split; [|assumption].
    rewrite (rmatch_first _ _ _ _ R) in M. injection M as <-. reflexivity.
  - exfalso.
    apply (strip_no_final_newline line ("[" +++ T +++ "] " +++ W +++ ": " +++ C)).
    rewrite Hs. now rewrite !append_assoc.
Qed.

Lemma parse_reads (line T W C : string) :
  reads_as (PyStr.strip line) T W C ->
  _parse_message line = (Some T, Some W, Some C).
Proof.
  intro R. unfold _parse_message. now rewrite (rmatch_first _ _ _ _ R).
Qed.

(** Running the parser decides well-formedness. *)
Lemma well_formedb_spec (line : string) :
  well_formedb line = true <-> well_formed line.
Proof.
  unfold well_formedb, well_formed. split.
  - destruct (parse_all_or_nothing line) as [E|(T & W & C & E & R)];
      rewrite E; [discriminate|]. intros _.
    exists T, W, C. destruct R as (? & ? & _). now split.
  - intros (T & W & C & E & Hnl).
    destruct (first_reading _ _ _ _ E Hnl) as (T' & W' & C' & R).
    now rewrite (parse_reads _ _ _ _ R).
Qed.

End ParseFacts.

(** C2 (as amended).  For every line: when the stripped line reads
    "[T] W: C" with T ending at the first "] " (closing bracket followed
    by a space) and W at the first ": " after it, and holds no line feed,
    [_parse_message] returns exactly (T, W, C); for every other line it
    returns (None, None, None). *)
Theorem parse_message_first_separators (line : string) :
  (forall T W C,
      reads_as (PyStr.strip line) T W C ->
      _parse_message line = (Some T, Some W, Some C))
  /\ ((~ exists T W C, reads_as (PyStr.strip line) T W C) ->
      _parse_message line = (None, None, None)).
Proof.
  split.
  - intros T W C. apply ParseFacts.parse_reads.
  - intro Hno.
    destruct (ParseFacts.parse_all_or_nothing line)
      as [E|(T & W & C & _ & R)]; [assumption|].
    exfalso. apply Hno. now exists T, W, C.
Qed.

(** C2 as stated fails: in "[a]b] S: C" the first "]" is not followed by
    a space, so the line has no reading in which the timestamp ends at the
    first "]"; the parser nevertheless returns a triple, with the
    timestamp running up to the first "] ". *)
Lemma parse_message_first_bracket_counterexample :
  (~ exists T W C,
       PyStr.strip "[a]b] S: C" = "[" +++ T +++ "] " +++ W +++ ": " +++ C
       /\ PyStr.mem "]" T = false)
  /\ _parse_message "[a]b] S: C" = (Some "a]b", Some "S", Some "C").
Proof.
  split; [|reflexivity].
  intros (T & W & C & E & HT).
  change (PyStr.strip "[a]b] S: C") with "[a]b] S: C" in E.
  destruct T as [|c [|d T]]; simpl in E; try discriminate.
  inversion E; subst. discriminate.
Qed.

(** ** Frames *)

Module PdFacts.

Lemma nth_pad (w j : nat) (r : list Pd.cell) :
  nth j (Pd.pad w r) None = nth j r None.
Proof.
  unfold Pd.pad. destruct (Nat.lt_ge_cases j (length r)) as [L|L].
  - now rewrite app_nth1.
  - rewrite app_nth2 by assumption. rewrite (nth_overflow r) by assumption.
    generalize (j - length r). induction (w - length r) as [|n IH];
      intros [|m]; simpl; auto.
Qed.

Lemma split_rows (w : nat) (rows : list (nat * list Pd.cell)) :
  Forall (fun r => length (snd r) = 3) rows ->
  map (fun r => (fst r, [nth 3 (snd r) None; nth 4 (snd r) None;
                         nth 1 (snd r) None; nth 2 (snd r) None]))
      (Pd.map2 (fun r v => (fst r, snd r ++ [v]))
         (Pd.map2 (fun r v => (fst r, snd r ++ [v])) rows
            (map (fun r => nth 0 r None)
               (map (fun x => Pd.pad w (Pd.split_cell "," (nth 0 (snd x) None)))
                    rows)))
         (map (fun r => nth 1 r None)
            (map (fun x => Pd.pad w (Pd.split_cell "," (nth 0 (snd x) None)))
                 rows)))
  = map split_row rows.
Proof.
  induction 1 as [|[l r] rows Hr _ IH]; [reflexivity|].
  cbn [map Pd.map2]. rewrite IH. f_equal.
  destruct r as [|t [|s [|c [|? ?]]]]; try discriminate.
  unfold split_row. cbn [fst snd nth app]. now rewrite !nth_pad.
Qed.

(** [_split_and_reorder_timestamp] on a table as loaded: it succeeds
    exactly when the longest split has two parts, and then splits every
    row. *)
Lemma split_loaded (rows : list (nat * list Pd.cell)) :
  Forall (fun r => length (snd r) = 3) rows ->
  _split_and_reorder_timestamp {| Pd.columns := loaded_columns; Pd.rows := rows |}
  = if Nat.eqb (fold_right Nat.max 0 (map row_width rows)) 2
    then Ok {| Pd.columns := split_columns; Pd.rows := map split_row rows |}
    else Raise ValueError.
Proof.
  intro H3. unfold _split_and_reorder_timestamp, loaded_columns.
  cbn [Pd.getattr Pd.position Pd.columns Pd.rows String.eqb Ascii.eqb
       Bool.eqb bind].
  unfold Pd.setitem, Pd.str_split_expand. cbn [Pd.width Pd.cells length].
  rewrite !map_map.
  change (fun x : nat * list Pd.cell =>
            length (Pd.split_cell "," (nth 0 (snd x) None)))
    with row_width.
  destruct (Nat.eqb _ 2); [|reflexivity].
  cbn [combine seq fold_left fst snd bind].
  unfold Pd.set_column at 2. cbn [Pd.columns Pd.rows Pd.position].
  cbn -[Pd.map2 Pd.pad Pd.split_cell nth].
  unfold Pd.select. cbn -[Pd.map2 Pd.pad Pd.split_cell nth Pd.at_column].
  unfold split_columns. f_equal. f_equal. now apply split_rows.
Qed.

Lemma of_tuples_rows3 (data : list (Pd.cell * Pd.cell * Pd.cell))
      (cols : list string) :
  Forall (fun r => length (snd r) = 3) (Pd.rows (Pd.of_tuples data cols)).
Proof.
  unfold Pd.of_tuples. cbn [Pd.rows].
  enough (H : forall n,
             Forall (fun r : nat * list Pd.cell => length (snd r) = 3)
               (combine (seq n (length data))
                  (map (fun m : Pd.cell * Pd.cell * Pd.cell =>
                          let (p, c) := m in let (t, s) := p in [t; s; c])
                       data))) by apply H.
  induction data as [|[[t s] c] data IH]; intro n;
    cbn [length seq map combine]; constructor; [reflexivity|apply IH].
Qed.

Lemma widest_constant {A : Type} (f : A -> nat) (w : nat) (l : list A) :
  l <> [] -> Forall (fun x => f x = w) l ->
  fold_right Nat.max 0 (map f l) = w.
Proof.
  intros Hne H. induction H as [|x l Hx H IH]; [congruence|].
  cbn. rewrite Hx. destruct l as [|y l]; [cbn; lia|].
  rewrite IH by discriminate. lia.
Qed.

End PdFacts.

(** ** The timestamp split *)

(** C3 (as amended).  For every non-empty table whose timestamps all read
    "D, T" with no comma inside D or T, the split succeeds and gives Date =
    D and Time = " T" (the blank after the comma stays in Time): joining
    Date and Time with "," alone gives back the timestamp. *)
Theorem split_timestamp_recombine
        (msgs : list (string * string * Pd.cell * Pd.cell)) :
  msgs <> [] ->
  forallb (fun m => match m with
                    | (D, T, _, _) =>
                        negb (PyStr.mem "," D) && negb (PyStr.mem "," T)
                    end) msgs = true ->
  _split_and_reorder_timestamp
    (Pd.of_tuples
       (map (fun m => match m with
                      | (D, T, w, c) => (Some (D +++ ", " +++ T), w, c)
                      end) msgs)
       loaded_columns)
  = Ok {| Pd.columns := split_columns;
          Pd.rows :=
            combine (seq 0 (length msgs))
                    (map (fun m => match m with
                                   | (D, T, w, c) =>
                                       [Some D; Some (" " +++ T); w; c]
                                   end) msgs) |}
  /\ Forall (fun m => match m with
                      | (D, T, _, _) =>
                          PyStr.join "," [D; " " +++ T] = D +++ ", " +++ T
                      end) msgs.
Proof.
  intros Hne Hfree. split.
  - assert (Hsplit : forall D T, PyStr.mem "," D = false ->
                                 PyStr.mem "," T = false ->
              PyStr.split "," (D +++ ", " +++ T) = [D; " " +++ T]).
    { intros D T HD HT.
      change (D +++ ", " +++ T) with (D +++ String "," (" " +++ T)).
      rewrite StrFacts.split_at by assumption.
      now rewrite StrFacts.split_no_sep. }
    pose proof (PdFacts.of_tuples_rows3
                  (map (fun m => match m with
                                 | (D, T, w, c) => (Some (D +++ ", " +++ T), w, c)
                                 end) msgs) loaded_columns) as H3.
    unfold Pd.of_tuples in *. cbn [Pd.rows] in H3.
    rewrite (PdFacts.split_loaded _ H3). rewrite length_map.
    assert (Hrows : forall n,
      Forall (fun r => row_width r = 2)
        (combine (seq n (length msgs))
           (map (fun m : Pd.cell * Pd.cell * Pd.cell =>
                   let (p, c) := m in let (t, s) := p in [t; s; c])
              (map (fun m => match m with
                             | (D, T, w, c) => (Some (D +++ ", " +++ T), w, c)
                             end) msgs)))
      /\ map split_row
           (combine (seq n (length msgs))
              (map (fun m : Pd.cell * Pd.cell * Pd.cell =>
                      let (p, c) := m in let (t, s) := p in [t; s; c])
                 (map (fun m => match m with
                                | (D, T, w, c) => (Some (D +++ ", " +++ T), w, c)
                                end) msgs)))
         = combine (seq n (length msgs))
             (map (fun m => match m with
                            | (D, T, w, c) => [Some D; Some (" " +++ T); w; c]
                            end) msgs)).
    { clear Hne H3. induction msgs as [|[[[D T] w] c] msgs IH]; intro n.
      - split; [constructor|reflexivity].
      - cbn [forallb] in Hfree. apply andb_true_iff in Hfree as [Hm Hfree].
        apply andb_true_iff in Hm as [HD HT].
        apply negb_true_iff in HD, HT.
        destruct (IH Hfree (S n)) as [IHw IHr].
        cbn [length seq map combine]. split.
        + constructor; [|exact IHw].
          unfold row_width. cbn [snd nth Pd.split_cell].
          now rewrite (Hsplit D T HD HT).
        + rewrite IHr. f_equal.
          unfold split_row. cbn [fst snd nth Pd.split_cell].
          now rewrite (Hsplit D T HD HT). }
    destruct (Hrows 0) as [Hw Hr].
    rewrite (PdFacts.widest_constant row_width 2), Hr; [reflexivity| |exact Hw].
    destruct msgs; [congruence|discriminate].
  - apply Forall_forall. intros [[[D T] w] c] _. reflexivity.
Qed.

(** The statement at one table of two messages. *)
Lemma split_timestamp_recombine_witness :
  _split_and_reorder_timestamp
    (Pd.of_tuples
       [(Some "2023-01-01, 12:00 PM", Some "Alice", Some "Hello");
        (Some "2023-01-02, 1:30 PM", Some "Bob", Some "Hi")]
       loaded_columns)
  = Ok {| Pd.columns := split_columns;
          Pd.rows :=
            [(0, [Some "2023-01-01"; Some " 12:00 PM"; Some "Alice"; Some "Hello"]);
             (1, [Some "2023-01-02"; Some " 1:30 PM"; Some "Bob"; Some "Hi"])] |}.
Proof.
  refine (proj1 (split_timestamp_recombine
            [("2023-01-01", "12:00 PM", Some "Alice", Some "Hello");
             ("2023-01-02", "1:30 PM", Some "Bob", Some "Hi")] _ _)).
  - discriminate.
  - reflexivity.
Defined.

(** C3 as stated fails: the split cuts at the comma only, so Time keeps
    the blank, and joining with ", " doubles it. *)
Lemma split_timestamp_recombine_counterexample :
  exists date time : string,
    _split_and_reorder_timestamp
      (Pd.of_tuples [(Some "2023-01-01, 12:00 PM", Some "Alice", Some "Hello")]
                    loaded_columns)
    = Ok {| Pd.columns := split_columns;
            Pd.rows := [(0, [Some date; Some time; Some "Alice"; Some "Hello"])] |}
    /\ PyStr.join ", " [date; time] <> "2023-01-01, 12:00 PM".
Proof.
  exists "2023-01-01", " 12:00 PM". split; [reflexivity|discriminate].
Qed.

(** ** [load_chat_data] *)

Module ReadFacts.

Lemma filter_parsed (lines : list string) :
  filter (fun msg : parsed => is_not_None (fst (fst msg)))
         (map _parse_message lines)
  = map _parse_message (filter well_formedb lines).
Proof.
  induction lines as [|l lines IH]; [reflexivity|].
  cbn [map filter]. unfold well_formedb at 1.
  destruct (is_not_None (fst (fst (_parse_message l)))); cbn [map];
    now rewrite IH.
Qed.

(** The table assembled from the lines: one row per retained line. *)
Lemma parsed_frame_rows (lines : list string) :
  parsed_frame lines
  = {| Pd.columns := loaded_columns;
       Pd.rows := combine (seq 0 (length (filter well_formedb lines)))
                          (map line_cells (filter well_formedb lines)) |}.
Proof.
  unfold parsed_frame. rewrite filter_parsed. unfold Pd.of_tuples.
  rewrite length_map, map_map. reflexivity.
Qed.

Section Labelled.
Variable f : string -> list Pd.cell.

Lemma labels (l : list string) : forall n,
  map fst (combine (seq n (length l)) (map f l)) = seq n (length l).
Proof.
  induction l as [|x l IH]; intro n; cbn [length seq map combine];
    [reflexivity|]. now rewrite IH.
Qed.

Lemma rowwise (P : string -> list Pd.cell -> Prop) (l : list string) :
  Forall (fun x => P x (f x)) l ->
  forall n, Forall2 (fun x r => P x (snd r)) l
                    (combine (seq n (length l)) (map f l)).
Proof.
  induction 1 as [|x l Hx _ IH]; intro n; cbn [length seq map combine];
    constructor; auto.
Qed.

Lemma rowwise_all (P : list Pd.cell -> Prop) (l : list string) :
  Forall (fun x => P (f x)) l ->
  forall n, Forall (fun r => P (snd r))
                   (combine (seq n (length l)) (map f l)).
Proof.
  induction 1 as [|x l Hx _ IH]; intro n; cbn [length seq map combine];
    constructor; auto.
Qed.

Lemma rows3 (l : list string) :
  (forall x, length (f x) = 3) ->
  forall n, Forall (fun r => length (snd r) = 3)
                   (combine (seq n (length l)) (map f l)).
Proof.
  intro H. induction l as [|x l IH]; intro n; cbn [length seq map combine];
    constructor; [apply H|apply IH].
Qed.

Lemma split_labelled (l : list string) : forall n,
  map split_row (combine (seq n (length l)) (map f l))
  = combine (seq n (length l))
            (map (fun x => snd (split_row (0, f x))) l).
Proof.
  induction l as [|x l IH]; intro n; cbn [length seq map combine];
    [reflexivity|]. now rewrite IH.
Qed.

Lemma widths_labelled (l : list string) : forall n,
  map row_width (combine (seq n (length l)) (map f l))
  = map (fun x => row_width (0, f x)) l.
Proof.
  induction l as [|x l IH]; intro n; cbn [length seq map combine];
    [reflexivity|]. now rewrite IH.
Qed.

End Labelled.

Lemma line_cells_length (line : string) : length (line_cells line) = 3.
Proof. unfold line_cells. now destruct (_parse_message line) as [[t w] c]. Qed.

Lemma width_of_line (line : string) :
  row_width (0, line_cells line) = comma_parts line.
Proof.
  unfold row_width, comma_parts, line_cells.
  destruct (_parse_message line) as [[[T|] w] c]; cbn; [|reflexivity].
  apply length_map.
Qed.

(** Every retained line reads "[T] W: C", and its cells are T, W, C. *)
Lemma retained_cells (lines : list string) :
  Forall (fun line => exists T W C,
              reads_as (PyStr.strip line) T W C
              /\ line_cells line = [Some T; Some W; Some C])
         (filter well_formedb lines).
Proof.
  apply Forall_forall. intros line Hin.
  apply filter_In in Hin as [_ Hwf]. unfold well_formedb in Hwf.
  unfold line_cells.
  destruct (ParseFacts.parse_all_or_nothing line)
    as [E|(T & W & C & E & R)]; rewrite E in *; [discriminate|].
  now exists T, W, C.
Qed.

(** What [load_chat_data] computes once the file is open. *)
Lemma load_opened (fs : filesystem) (file_path text : string) (b : bool) :
  fs "_chat.txt" = Some text ->
  load_chat_data fs file_path b
  = let good := retained text in
    if b then
      if Nat.eqb (widest good) 2
      then Ok {| Pd.columns := split_columns;
                 Pd.rows := combine (seq 0 (length good))
                              (map (fun x => snd (split_row (0, line_cells x)))
                                   good) |}
      else Raise ValueError
    else Ok {| Pd.columns := loaded_columns;
               Pd.rows := combine (seq 0 (length good))
                                  (map line_cells good) |}.
Proof.
  intro H. unfold load_chat_data. rewrite H. cbv zeta.
  rewrite parsed_frame_rows. fold (retained text).
  destruct b; [|reflexivity].
  rewrite PdFacts.split_loaded by (apply rows3, line_cells_length).
  rewrite widths_labelled, split_labelled.
  unfold widest. rewrite (map_ext _ _ width_of_line). reflexivity.
Qed.

End ReadFacts.

(** C1.  The claim is not what the code does: [load_chat_data] never looks
    at [file_path]; it opens "_chat.txt" whatever path it is given.  So a
    file that exists under the given path is not read (and the call fails
    when "_chat.txt" is missing), and a missing path does not make the call
    fail when "_chat.txt" exists. *)
Theorem load_ignores_file_path :
  (forall fs p q b, load_chat_data fs p b = load_chat_data fs q b)
  /\ load_chat_data (only_file "log.txt" "[1, 2] A: hi") "log.txt" false
     = Raise FileNotFoundError
  /\ load_chat_data (only_chat "[1, 2] A: hi") "missing.txt" false
     = Ok {| Pd.columns := loaded_columns;
             Pd.rows := [(0, [Some "1, 2"; Some "A"; Some "hi"])] |}.
Proof. repeat split. Qed.

(** C5 (as amended).  For the text of the file the loader opens, with N
    retained (well-formed) lines among all its lines: without the split the
    table has exactly N rows, labelled 0..N-1, row i holding the timestamp,
    sender and content of the i-th retained line; with the split the same
    holds (the timestamp replaced by its first two comma-separated parts)
    when the longest split of a retained timestamp has exactly two parts,
    and the call raises ValueError otherwise. *)
Theorem load_keeps_well_formed_lines
        (fs : filesystem) (file_path text : string) :
  fs "_chat.txt" = Some text ->
  (exists rows,
      load_chat_data fs file_path false
      = Ok {| Pd.columns := loaded_columns; Pd.rows := rows |}
      /\ length rows = length (retained text)
      /\ map fst rows = seq 0 (length (retained text))
      /\ Forall2 (fun line r =>
                    exists T W C,
                      reads_as (PyStr.strip line) T W C
                      /\ snd r = [Some T; Some W; Some C])
                 (retained text) rows)
  /\ (widest (retained text) = 2 ->
      exists rows,
        load_chat_data fs file_path true
        = Ok {| Pd.columns := split_columns; Pd.rows := rows |}
        /\ length rows = length (retained text)
        /\ map fst rows = seq 0 (length (retained text))
        /\ Forall2 (fun line r =>
                      exists T W C,
                        reads_as (PyStr.strip line) T W C
                        /\ snd r = [nth 0 (map Some (PyStr.split "," T)) None;
                                    nth 1 (map Some (PyStr.split "," T)) None;
                                    Some W; Some C])
                   (retained text) rows)
  /\ (widest (retained text) <> 2 ->
      load_chat_data fs file_path true = Raise ValueError).
Proof.
  intro H. split; [|split].
  - eexists. rewrite (ReadFacts.load_opened _ _ _ false H). cbv zeta.
    split; [reflexivity|]. split; [|split].
    + rewrite <- (length_map fst), ReadFacts.labels. apply length_seq.
    + apply ReadFacts.labels.
    + apply (ReadFacts.rowwise line_cells
               (fun line cells => exists T W C,
                    reads_as (PyStr.strip line) T W C
                    /\ cells = [Some T; Some W; Some C])).
      apply ReadFacts.retained_cells.
  - intro Hw. eexists. rewrite (ReadFacts.load_opened _ _ _ true H).
    cbv zeta. rewrite Hw. cbn [Nat.eqb].
    split; [reflexivity|]. split; [|split].
    + rewrite <- (length_map fst), ReadFacts.labels. apply length_seq.
    + apply ReadFacts.labels.
    + apply (ReadFacts.rowwise (fun x => snd (split_row (0, line_cells x)))
               (fun line cells => exists T W C,
                    reads_as (PyStr.strip line) T W C
                    /\ cells = [nth 0 (map Some (PyStr.split "," T)) None;
                                nth 1 (map Some (PyStr.split "," T)) None;
                                Some W; Some C])).
      eapply Forall_impl; [|apply ReadFacts.retained_cells].
      intros line (T & W & C & R & E). exists T, W, C. split; [assumption|].
      now rewrite E.
  - intro Hw. rewrite (ReadFacts.load_opened _ _ _ true H). cbv zeta.
    apply Nat.eqb_neq in Hw. now rewrite Hw.
Qed.

(** The statement at a file of three lines, the second one malformed. *)
Lemma load_keeps_well_formed_lines_witness :
  exists rows,
    load_chat_data
      (only_chat ("[1, 2] A: hi" +++ line_feed +++ "junk" +++ line_feed
                  +++ "[3, 4] B: yo"))
      "chat.txt" false
    = Ok {| Pd.columns := loaded_columns; Pd.rows := rows |}
    /\ length rows = 2.
Proof.
  destruct (load_keeps_well_formed_lines
              (only_chat ("[1, 2] A: hi" +++ line_feed +++ "junk" +++ line_feed
                          +++ "[3, 4] B: yo"))
              "chat.txt"
              ("[1, 2] A: hi" +++ line_feed +++ "junk" +++ line_feed
               +++ "[3, 4] B: yo")
              eq_refl) as [(rows & E & L & _) _].
  exists rows. split; [exact E|exact L].
Defined.

(** C5 as stated fails: a file whose only line is well formed, with a
    timestamp that holds no comma, gives no table under the default
    [split_timestamp = True]. *)
Lemma load_keeps_well_formed_lines_counterexample :
  retained "[noon] A: hi" = ["[noon] A: hi"]
  /\ load_chat_data (only_chat "[noon] A: hi") "_chat.txt" true
     = Raise ValueError.
Proof. split; reflexivity. Qed.

(** C6 (as amended).  Every row of a table produced by [load_chat_data]
    has a sender and a content, and a timestamp (without the split) or a
    date (with the split); this rests on the parser answering with three
    strings or with three [None], never with a mix. *)
Theorem load_rows_have_sender_and_content
        (fs : filesystem) (file_path : string) (b : bool) (df : Pd.DataFrame) :
  load_chat_data fs file_path b = Ok df ->
  Forall (fun r =>
            Pd.at_column (Pd.columns df) "Sender" (snd r) <> None
            /\ Pd.at_column (Pd.columns df) "Content" (snd r) <> None
            /\ Pd.at_column (Pd.columns df)
                            (if b then "Date" else "Timestamp") (snd r) <> None)
         (Pd.rows df)
  /\ forall line,
      _parse_message line = (None, None, None)
      \/ exists T W C, _parse_message line = (Some T, Some W, Some C).
Proof.
  intro H. split.
  2:{ intro line.
      destruct (ParseFacts.parse_all_or_nothing line)
        as [E|(T & W & C & E & _)]; [now left|right; now exists T, W, C]. }
  destruct (fs "_chat.txt") as [text|] eqn:F.
  2:{ unfold load_chat_data in H. rewrite F in H. discriminate. }
  rewrite (ReadFacts.load_opened _ _ _ b F) in H. cbv zeta in H.
  pose proof (ReadFacts.retained_cells (readlines (translate_newlines text)))
    as Hc. fold (retained text) in Hc.
  destruct b.
  - destruct (Nat.eqb (widest (retained text)) 2); [|discriminate].
    injection H as <-. cbn [Pd.columns Pd.rows].
    apply (ReadFacts.rowwise_all
             (fun x => snd (split_row (0, line_cells x)))
             (fun cells =>
                Pd.at_column split_columns "Sender" cells <> None
                /\ Pd.at_column split_columns "Content" cells <> None
                /\ Pd.at_column split_columns "Date" cells <> None)).
    eapply Forall_impl; [|exact Hc].
    intros line (T & W & C & _ & E). rewrite E.
    unfold split_row. cbn [fst snd nth Pd.split_cell].
    destruct (StrFacts.split_nonempty "," T) as (p & ps & ->).
    cbn. repeat split; discriminate.
  - injection H as <-. cbn [Pd.columns Pd.rows].
    apply (ReadFacts.rowwise_all line_cells
             (fun cells =>
                Pd.at_column loaded_columns "Sender" cells <> None
                /\ Pd.at_column loaded_columns "Content" cells <> None
                /\ Pd.at_column loaded_columns "Timestamp" cells <> None)).
    eapply Forall_impl; [|exact Hc].
    intros line (T & W & C & _ & E). rewrite E.
    cbn. repeat split; discriminate.
Qed.

(** The statement at a file of two lines, with the split. *)
Lemma load_rows_have_sender_and_content_witness :
  Forall (fun r =>
            Pd.at_column split_columns "Sender" (snd r) <> None
            /\ Pd.at_column split_columns "Content" (snd r) <> None
            /\ Pd.at_column split_columns "Date" (snd r) <> None)
         [(0, [Some "a"; Some "b"; Some "X"; Some "hi"]);
          (1, [Some "c"; None; Some "Y"; Some "yo"])].
Proof.
  exact (proj1 (load_rows_have_sender_and_content
                  (only_chat ("[a,b] X: hi" +++ line_feed +++ "[c] Y: yo"))
                  "_chat.txt" true
                  {| Pd.columns := split_columns;
                     Pd.rows := [(0, [Some "a"; Some "b"; Some "X"; Some "hi"]);
                                 (1, [Some "c"; None; Some "Y"; Some "yo"])] |}
                  eq_refl)).
Defined.

(** C6 as stated fails: with the split, a timestamp without comma next to
    one with a comma leaves a row whose Time is missing. *)
Lemma load_partial_row_counterexample :
  exists df,
    load_chat_data (only_chat ("[a,b] X: hi" +++ line_feed +++ "[c] Y: yo"))
                   "_chat.txt" true = Ok df
    /\ ~ Forall (fun r => Forall (fun x : Pd.cell => x <> None) (snd r))
                (Pd.rows df).
Proof.
  eexists. split; [reflexivity|].
  cbn [Pd.rows]. intro H.
  inversion H as [|? ? _ H1]; subst. inversion H1 as [|? ? H2 _]; subst.
  cbn [snd] in H2.
  inversion H2 as [|? ? _ H3]; subst. inversion H3 as [|? ? H4 _]; subst.
  now apply H4.
Qed.

(** ** [count_word_usage] *)

Module FindFacts.
Import StrFacts.

Lemma ci_prefixb_spec (word : string) : forall text,
  ci_prefixb word text = true
  <-> exists mid post, text = mid +++ post
                       /\ PyStr.lower_str mid = PyStr.lower_str word.
Proof.
  induction word as [|a word IH]; intro text.
  - split; [intros _; now exists "", text|reflexivity].
  - destruct text as [|b text]; cbn [ci_prefixb].
    + split; [discriminate|]. intros ([|m mid] & post & E & L); discriminate.
    + rewrite andb_true_iff, IH. split.
      * intros [Hab (mid & post & -> & L)].
        apply Ascii.eqb_eq in Hab.
        exists (String b mid), post. cbn. now rewrite Hab, L.
      * intros ([|m mid] & post & E & L); [discriminate|].
        cbn in E, L. injection E as <- ->. injection L as Hab L.
        split; [now apply Ascii.eqb_eq|now exists mid, post].
Qed.

Lemma ci_containsb_spec (word text : string) :
  ci_containsb word text = true <-> ci_contains word text.
Proof.
  unfold ci_contains. induction text as [|b text IH]; cbn [ci_containsb];
    rewrite orb_true_iff, ci_prefixb_spec.
  - split.
    + intros [(mid & post & E & L)|]; [|discriminate].
      now exists "", mid, post.
    + intros ([|] & mid & post & E & L); [|discriminate].
      left. now exists mid, post.
  - rewrite IH. split.
    + intros [(mid & post & E & L)|(pre & mid & post & -> & L)].
      * now exists "", mid, post.
      * now exists (String b pre), mid, post.
    + intros ([|c pre] & mid & post & E & L).
      * left. now exists mid, post.
      * right. cbn in E. injection E as _ ->. now exists pre, mid, post.
Qed.

(** Matching a plain term at one position. *)
Lemma exec_literal (word : string) : forall pos text,
  Re.exec true (literal word) Re.accept pos text []
  = if ci_prefixb word text then Some [] else None.
Proof.
  induction word as [|a word IH]; intros pos text; [reflexivity|].
  destruct text as [|b text]; [reflexivity|].
  cbn [literal Re.exec Re.test ci_prefixb].
  destruct (Ascii.eqb (PyStr.lower b) (PyStr.lower a)); [|reflexivity].
  apply IH.
Qed.

(** Searching for a plain term is case-blind containment. *)
Lemma search_literal (word text : string) :
  Re.search true (literal word) text = ci_containsb word text.
Proof.
  unfold Re.search. generalize 0.
  induction text as [|b text IH]; intro pos;
    cbn [Re.search_from ci_containsb]; rewrite exec_literal.
  - now destruct (ci_prefixb word "").
  - destruct (ci_prefixb word (String b text)); [reflexivity|]. apply IH.
Qed.

Lemma plain_not_special (c : ascii) :
  Re.is_special c = false ->
  Ascii.eqb c "." = false /\ Ascii.eqb c "*" = false
  /\ Ascii.eqb c "+" = false /\ Ascii.eqb c "?" = false.
Proof.
  intro H. repeat split;
    match goal with
    | |- Ascii.eqb c ?d = false =>
        destruct (Ascii.eqb_spec c d) as [->|]; [discriminate H|reflexivity]
    end.
Qed.

Lemma compile_plain_literal (word : string) :
  plain word = true -> Re.compile_plain word = Re.Compiled (literal word).
Proof.
  unfold plain. induction word as [|c word IH]; cbn [PyStr.all]; intro H;
    [reflexivity|].
  apply andb_true_iff in H as [Hc H]. apply negb_true_iff in Hc.
  cbn [Re.compile_plain literal].
  destruct (plain_not_special c Hc) as (-> & _). rewrite Hc.
  now rewrite (IH H).
Qed.

(** A plain search term compiles to its own characters. *)
Lemma compile_literal (word : string) :
  plain word = true -> Re.compile word = Re.Compiled (literal word).
Proof.
  intro H. unfold Re.compile. destruct word as [|c word].
  - reflexivity.
  - pose proof H as H'. unfold plain in H'. cbn [PyStr.all] in H'.
    apply andb_true_iff in H' as [Hc _]. apply negb_true_iff in Hc.
    destruct (plain_not_special c Hc) as (_ & -> & -> & ->).
    cbn [orb]. now apply compile_plain_literal.
Qed.

Lemma keep_map {A : Type} (f : A -> bool) (xs : list A) :
  Pd.keep xs (map f xs) = filter f xs.
Proof.
  induction xs as [|x xs IH]; cbn; [reflexivity|].
  destruct (f x); now rewrite IH.
Qed.

Lemma at_position (cols : list string) (c : string) (p : nat)
      (r : list Pd.cell) :
  Pd.position c cols = Some p -> Pd.at_column cols c r = nth p r None.
Proof. unfold Pd.at_column. now intros ->. Qed.

(** [count_word_usage] once the pattern is compiled, on a table with the
    three columns it reads. *)
Lemma count_compiled (word : string) (r : Re.regex) (df : Pd.DataFrame) :
  Re.compile word = Re.Compiled r ->
  Pd.has_column df "Date" = true ->
  Pd.has_column df "Sender" = true ->
  Pd.has_column df "Content" = true ->
  count_word_usage word df
  = Ok {| Pd.columns := search_columns;
          Pd.rows :=
            map (hit (Pd.columns df))
                (filter (fun row =>
                           match Pd.at_column (Pd.columns df) "Content" (snd row) with
                           | Some s => Re.search true r s
                           | None => false
                           end)
                        (Pd.rows df)) |}.
Proof.
  intros Hc HD HS HC. unfold count_word_usage, Pd.getitem.
  unfold Pd.has_column in HC.
  destruct (Pd.position "Content" (Pd.columns df)) as [p|] eqn:P;
    [|discriminate].
  cbn [bind]. unfold Pd.str_contains. rewrite Hc. cbn [bind].
  unfold Pd.select, Pd.getitem_mask. cbn [forallb Pd.columns Pd.rows].
  rewrite map_map, keep_map.
  unfold Pd.has_column in *. cbn [Pd.columns].
  rewrite P.
  destruct (Pd.position "Date" (Pd.columns df)); [|discriminate].
  destruct (Pd.position "Sender" (Pd.columns df)); [|discriminate].
  cbn [andb]. unfold search_columns. f_equal. f_equal.
  f_equal. apply filter_ext. intro row.
  now rewrite (at_position _ _ _ _ P).
Qed.

(** Without a Date column the selection of columns raises. *)
Lemma count_without_date (word : string) (r : Re.regex) (df : Pd.DataFrame) :
  Re.compile word = Re.Compiled r ->
  Pd.has_column df "Date" = false ->
  count_word_usage word df = Raise KeyError.
Proof.
  intros Hc HD. unfold count_word_usage, Pd.getitem.
  destruct (Pd.position "Content" (Pd.columns df)) as [p|] eqn:P;
    [|reflexivity].
  cbn [bind]. unfold Pd.str_contains. rewrite Hc. cbn [bind].
  unfold Pd.select, Pd.getitem_mask. cbn [forallb].
  unfold Pd.has_column in *. cbn [Pd.columns].
  destruct (Pd.position "Date" (Pd.columns df)); [discriminate|reflexivity].
Qed.

End FindFacts.

(** The search for a plain term (no character that is special in a
    pattern) on a table with Date, Sender and Content: exactly the rows
    whose content contains the term, letter case ignored, in their order,
    under the columns Date, Sender, Content. *)
Theorem count_word_usage_plain (word : string) (df : Pd.DataFrame) :
  plain word = true ->
  Pd.has_column df "Date" = true ->
  Pd.has_column df "Sender" = true ->
  Pd.has_column df "Content" = true ->
  count_word_usage word df
  = Ok {| Pd.columns := search_columns;
          Pd.rows := map (hit (Pd.columns df))
                         (filter (mentions (Pd.columns df) word) (Pd.rows df)) |}
  /\ forall text, ci_containsb word text = true <-> ci_contains word text.
Proof.
  intros Hp HD HS HC. split; [|intro; apply FindFacts.ci_containsb_spec].
  rewrite (FindFacts.count_compiled word (literal word) df
             (FindFacts.compile_literal word Hp) HD HS HC).
  f_equal. f_equal. f_equal. apply filter_ext. intro row.
  unfold mentions. destruct (Pd.at_column _ _ _); [|reflexivity].
  apply FindFacts.search_literal.
Qed.

(** The example of the specification: "hello" is found in rows 0 and 2. *)
Example count_word_usage_hello :
  count_word_usage "hello" greetings
  = Ok {| Pd.columns := search_columns;
          Pd.rows := [(0, [Some "2023-01-01"; Some "Alice"; Some "Hello there"]);
                      (2, [Some "2023-01-02"; Some "Alice"; Some "say hello!"])] |}.
Proof. reflexivity. Qed.

(** C4.  The claim is not what the code does: the search term is compiled
    as a regular expression.  With the term "." every row of the example
    table comes back, although no content contains a full stop. *)
Theorem count_word_usage_dot_is_wildcard :
  count_word_usage "." greetings
  = Ok {| Pd.columns := search_columns;
          Pd.rows := [(0, [Some "2023-01-01"; Some "Alice"; Some "Hello there"]);
                      (1, [Some "2023-01-01"; Some "Bob"; Some "bye"]);
                      (2, [Some "2023-01-02"; Some "Alice"; Some "say hello!"])] |}
  /\ ~ ci_contains "." "Hello there"
  /\ ~ ci_contains "." "bye"
  /\ ~ ci_contains "." "say hello!".
Proof.
  split; [reflexivity|].
  repeat split; intro H; apply FindFacts.ci_containsb_spec in H;
    discriminate H.
Qed.

(** C8.  The claim is not what the code does for every word: a word that
    is not a valid pattern makes the search raise the pattern error before
    the columns are selected, Date column or not. *)
Theorem count_word_usage_invalid_pattern :
  Pd.has_column (Pd.of_tuples [(Some "1, 2", Some "A", Some "hi")] loaded_columns)
                "Date" = false
  /\ count_word_usage "*"
       (Pd.of_tuples [(Some "1, 2", Some "A", Some "hi")] loaded_columns)
     = Raise ReError.
Proof. split; reflexivity. Qed.

(** For a word that compiles (a plain word does), a table without Date
    column makes the search raise KeyError. *)
Theorem count_word_usage_needs_date (word : string) (df : Pd.DataFrame) :
  plain word = true ->
  Pd.has_column df "Date" = false ->
  count_word_usage word df = Raise KeyError.
Proof.
  intros Hp HD.
  exact (FindFacts.count_without_date word (literal word) df
           (FindFacts.compile_literal word Hp) HD).
Qed.

(** C10.  On a table with Date, Sender and Content whose contents are all
    present, the search for the empty word returns every row, in order,
    under the columns Date, Sender, Content. *)
Theorem count_word_usage_empty_word (df : Pd.DataFrame) :
  Pd.has_column df "Date" = true ->
  Pd.has_column df "Sender" = true ->
  Pd.has_column df "Content" = true ->
  Forall (fun r => Pd.at_column (Pd.columns df) "Content" (snd r) <> None)
         (Pd.rows df) ->
  count_word_usage "" df
  = Ok {| Pd.columns := search_columns;
          Pd.rows := map (hit (Pd.columns df)) (Pd.rows df) |}.
Proof.
  intros HD HS HC Hall.
  rewrite (FindFacts.count_compiled "" Re.Eps df eq_refl HD HS HC).
  f_equal. f_equal. f_equal.
  induction Hall as [|r rows Hr _ IH]; [reflexivity|].
  cbn [filter]. destruct (Pd.at_column _ _ (snd r)) as [s|]; [|congruence].
  replace (Re.search true Re.Eps s) with true by (now destruct s).
  now rewrite IH.
Qed.

(** The statement at the example table. *)
Lemma count_word_usage_empty_word_witness :
  count_word_usage "" greetings
  = Ok {| Pd.columns := search_columns;
          Pd.rows := map (hit (Pd.columns greetings)) (Pd.rows greetings) |}.
Proof.
  apply (count_word_usage_empty_word greetings); try reflexivity.
  repeat constructor; discriminate.
Defined.

(** ** Counting by sender *)

Module GroupFacts.

Lemma str_lt_trans (a b c : string) : str_lt a b -> str_lt b c -> str_lt a c.
Proof.
  unfold str_lt. intros H1 H2.
  apply String_as_OT.cmp_lt. apply String_as_OT.cmp_lt in H1, H2.
  exact (String_as_OT.lt_trans _ _ _ H1 H2).
Qed.

Lemma str_lt_irrefl (a : string) : ~ str_lt a a.
Proof.
  unfold str_lt. intro H.
  assert (E : String.compare a a = Eq) by now apply String_as_OT.cmp_eq.
  congruence.
Qed.

Lemma str_gt_lt (a b : string) : String.compare a b = Gt -> str_lt b a.
Proof.
  unfold str_lt. intro H.
  pose proof (String_as_OT.cmp_antisym b a) as E.
  unfold String_as_OT.cmp in E. now rewrite H in E.
Qed.

Lemma insert_in (k x : string) (ks : list string) :
  In x (Pd.insert k ks) <-> x = k \/ In x ks.
Proof.
  induction ks as [|y ks IH]; cbn [Pd.insert].
  - cbn. intuition.
  - destruct (String.compare k y) eqn:E.
    + apply String_as_OT.cmp_eq in E. subst y. cbn. intuition.
    + cbn. intuition.
    + cbn [In]. rewrite IH. intuition.
Qed.

Lemma insert_sorted (k : string) (ks : list string) :
  StronglySorted str_lt ks -> StronglySorted str_lt (Pd.insert k ks).
Proof.
  induction 1 as [|y ks Hs IH Hy]; cbn [Pd.insert].
  - repeat constructor.
  - destruct (String.compare k y) eqn:E.
    + now constructor.
    + constructor; [now constructor|].
      constructor; [exact E|].
      eapply Forall_impl; [|exact Hy]. intros z Hz.
      exact (str_lt_trans _ _ _ E Hz).
    + constructor; [assumption|].
      apply Forall_forall. intros z Hz. apply insert_in in Hz as [->|Hz].
      * now apply str_gt_lt.
      * rewrite Forall_forall in Hy. now apply Hy.
Qed.

Lemma keys_sorted (vals : list string) :
  StronglySorted str_lt (fold_right Pd.insert [] vals).
Proof.
  induction vals as [|v vals IH]; cbn; [constructor|now apply insert_sorted].
Qed.

Lemma keys_in (vals : list string) (x : string) :
  In x (fold_right Pd.insert [] vals) <-> In x vals.
Proof.
  induction vals as [|v vals IH]; cbn [fold_right]; [reflexivity|].
  rewrite insert_in, IH. cbn. intuition.
Qed.

(** Two strictly sorted lists with the same elements are the same list. *)
Lemma sorted_unique (l1 : list string) : forall l2,
  StronglySorted str_lt l1 -> StronglySorted str_lt l2 ->
  (forall x, In x l1 <-> In x l2) -> l1 = l2.
Proof.
  induction l1 as [|a l1 IH]; intros l2 S1 S2 Hin.
  - destruct l2 as [|b l2]; [reflexivity|].
    exfalso. apply (proj2 (Hin b)). now left.
  - destruct l2 as [|b l2].
    { exfalso. apply (proj1 (Hin a)). now left. }
    apply StronglySorted_inv in S1 as [S1 F1].
    apply StronglySorted_inv in S2 as [S2 F2].
    rewrite Forall_forall in F1, F2.
    assert (a = b) as <-.
    { destruct (proj1 (Hin a) (or_introl eq_refl)) as [E|Ha]; [now symmetry|].
      destruct (proj2 (Hin b) (or_introl eq_refl)) as [E|Hb]; [assumption|].
      exfalso. apply (str_lt_irrefl a).
      exact (str_lt_trans _ _ _ (F1 _ Hb) (F2 _ Ha)). }
    f_equal. apply IH; try assumption.
    intro x. split; intro Hx.
    + destruct (proj1 (Hin x) (or_intror Hx)) as [<-|]; [|assumption].
      exfalso. exact (str_lt_irrefl _ (F1 _ Hx)).
    + destruct (proj2 (Hin x) (or_intror Hx)) as [<-|]; [|assumption].
      exfalso. exact (str_lt_irrefl _ (F2 _ Hx)).
Qed.

Lemma present_perm (c1 c2 : list Pd.cell) :
  Permutation c1 c2 -> Permutation (Pd.present c1) (Pd.present c2).
Proof.
  induction 1 as [|x l l' _ IH|x y l|l l' l'' _ IH1 _ IH2].
  - constructor.
  - destruct x; cbn [Pd.present]; [now apply perm_skip|assumption].
  - destruct x, y; cbn [Pd.present];
      [apply perm_swap|apply Permutation_refl..].
  - now transitivity (Pd.present l').
Qed.

(** The counts only depend on the values of the key column up to their
    order. *)
Lemma counts_perm (v1 v2 : list string) :
  Permutation v1 v2 ->
  map (fun k => (k, count_occ string_dec v1 k)) (fold_right Pd.insert [] v1)
  = map (fun k => (k, count_occ string_dec v2 k)) (fold_right Pd.insert [] v2).
Proof.
  intro P.
  rewrite (sorted_unique _ _ (keys_sorted v1) (keys_sorted v2)).
  - apply map_ext. intro k. f_equal.
    now apply (Permutation_count_occ string_dec).
  - intro x. rewrite !keys_in. split; apply Permutation_in;
      [assumption|now symmetry].
Qed.

Lemma count_present (p : nat) (s : string) (rows : list (nat * list Pd.cell)) :
  count_occ string_dec
            (Pd.present (map (fun r => nth p (snd r) None) rows)) s
  = length (filter (fun r => match nth p (snd r) None with
                             | Some x => String.eqb x s
                             | None => false
                             end) rows).
Proof.
  induction rows as [|r rows IH]; [reflexivity|].
  cbn [map filter Pd.present]. cbn beta. unfold Pd.cell in *.
  destruct (nth p (snd r) None) as [x|]; [|exact IH].
  cbn [count_occ]. destruct (string_dec x s) as [->|N].
  - rewrite String.eqb_refl. cbn [length]. now rewrite IH.
  - apply String.eqb_neq in N. now rewrite N.
Qed.

Lemma present_in (s : string) (col : list Pd.cell) :
  In (Some s) col -> In s (Pd.present col).
Proof.
  induction col as [|[x|] col IH]; cbn [Pd.present]; [contradiction| |].
  - intros [E|H]; [injection E as ->; now left|right; now apply IH].
  - intros [E|H]; [discriminate|now apply IH].
Qed.

(** A table with a row that has a sender has counts with an entry. *)
Lemma counts_nonempty (df : Pd.DataFrame) (p : nat) :
  Pd.position "Sender" (Pd.columns df) = Some p ->
  some_sender df = true ->
  map (fun k => (k, count_occ string_dec
                      (Pd.present (map (fun r => nth p (snd r) None) (Pd.rows df)))
                      k))
      (fold_right Pd.insert []
         (Pd.present (map (fun r => nth p (snd r) None) (Pd.rows df))))
  <> [].
Proof.
  intros P H. unfold some_sender in H.
  apply existsb_exists in H as (r & Hin & Hr). unfold has_sender in Hr.
  rewrite (FindFacts.at_position _ _ _ (snd r) P) in Hr.
  destruct (nth p (snd r) None) as [s|] eqn:E; [|discriminate].
  assert (Hs : In s (fold_right Pd.insert []
                       (Pd.present (map (fun r => nth p (snd r) None)
                                        (Pd.rows df))))).
  { apply (proj2 (keys_in _ _)). apply present_in. rewrite <- E.
    exact (in_map (fun r : nat * list Pd.cell => nth p (snd r) None) _ _ Hin). }
  destruct (fold_right Pd.insert [] _); [contradiction|discriminate].
Qed.

End GroupFacts.

(** C9.  On every table with a Sender column and a row that has a sender,
    [plot_senders_distribution] shows counts that hold, for each sender,
    the number of rows with that sender (and an entry exactly for the
    senders that occur); their keys come in strictly increasing order of
    the sender names (strings compared code point by code point); and it
    shows the same for every table with the same rows in another order. *)
Theorem sender_counts (df : Pd.DataFrame) :
  Pd.has_column df "Sender" = true ->
  some_sender df = true ->
  exists rep,
    plot_senders_distribution df = Ok rep
    /\ (forall s n, In (s, n) (sender_message_count rep)
                    <-> n = rows_of_sender df s /\ 0 < n)
    /\ StronglySorted str_lt (map fst (sender_message_count rep))
    /\ (forall df', Pd.columns df' = Pd.columns df ->
                    Permutation (Pd.rows df) (Pd.rows df') ->
                    plot_senders_distribution df' = Ok rep).
Proof.
  intros H Hsome. unfold Pd.has_column in H.
  destruct (Pd.position "Sender" (Pd.columns df)) as [p|] eqn:P;
    [clear H|discriminate].
  pose proof (GroupFacts.counts_nonempty df p P Hsome) as Hne.
  set (vals := Pd.present (map (fun r => nth p (snd r) None) (Pd.rows df)))
    in *.
  set (counts := map (fun k => (k, count_occ string_dec vals k))
                     (fold_right Pd.insert [] vals)) in *.
  assert (G : forall df', Pd.columns df' = Pd.columns df ->
                          Permutation (Pd.rows df) (Pd.rows df') ->
                          Pd.groupby_size df' "Sender" = Ok counts).
  { intros df' Hcols Hperm. unfold Pd.groupby_size, Pd.getitem.
    rewrite Hcols, P. cbn [bind]. f_equal. symmetry.
    apply GroupFacts.counts_perm, GroupFacts.present_perm.
    now apply Permutation_map. }
  assert (R : forall df', Pd.columns df' = Pd.columns df ->
                          Permutation (Pd.rows df) (Pd.rows df') ->
                          plot_senders_distribution df'
                          = Ok {| sender_message_count := counts;
                                  annotations :=
                                    map (fun iv => (snd iv, snd iv, fst iv))
                                        (enumerate 0 (map snd counts)) |}).
  { intros df' Hcols Hperm. unfold plot_senders_distribution.
    rewrite (G df' Hcols Hperm). cbn [bind].
    destruct counts; [congruence|reflexivity]. }
  eexists. split; [exact (R df eq_refl (Permutation_refl _))|].
  cbn [sender_message_count]. split; [|split].
  - intros s n. unfold counts. rewrite in_map_iff. unfold rows_of_sender.
    rewrite <- (filter_ext _ _ (fun r => f_equal
                  (fun c => match c with Some x => String.eqb x s | None => false end)
                  (eq_sym (FindFacts.at_position _ _ _ (snd r) P)))).
    rewrite <- GroupFacts.count_present. fold vals. split.
    + intros (k & E & Hin). injection E as -> <-. split; [reflexivity|].
      apply (proj1 (GroupFacts.keys_in _ _)) in Hin.
      exact (proj1 (count_occ_In string_dec _ _) Hin).
    + intros [-> Hpos]. exists s. split; [reflexivity|].
      apply (proj2 (GroupFacts.keys_in _ _)).
      exact (proj2 (count_occ_In string_dec _ _) Hpos).
  - unfold counts. rewrite map_map. cbn [fst]. rewrite map_id.
    apply GroupFacts.keys_sorted.
  - exact R.
Qed.

(** The statement at a table with Alice twice and Bob once. *)
Lemma sender_counts_witness :
  exists rep,
    plot_senders_distribution greetings = Ok rep
    /\ StronglySorted str_lt (map fst (sender_message_count rep)).
Proof.
  destruct (sender_counts greetings eq_refl eq_refl) as (rep & E & _ & S & _).
  exists rep. split; [exact E|exact S].
Defined.

(** The example of the specification, in two row orders. *)
Example sender_counts_alice_bob :
  plot_senders_distribution
    (Pd.of_tuples [(Some "t", Some "Alice", Some "a");
                   (Some "t", Some "Bob", Some "b");
                   (Some "t", Some "Alice", Some "c")] loaded_columns)
  = Ok {| sender_message_count := [("Alice", 2); ("Bob", 1)];
          annotations := [(2, 2, 0); (1, 1, 1)] |}
  /\ plot_senders_distribution
       (Pd.of_tuples [(Some "t", Some "Bob", Some "b");
                      (Some "t", Some "Alice", Some "c");
                      (Some "t", Some "Alice", Some "a")] loaded_columns)
     = Ok {| sender_message_count := [("Alice", 2); ("Bob", 1)];
             annotations := [(2, 2, 0); (1, 1, 1)] |}.
Proof. split; reflexivity. Qed.

(** ** A file without any well-formed line *)

(** C7 (as amended).  When no line of the file parses (an empty file, for
    one), the loader without the split returns the table without rows under
    Timestamp, Sender, Content, and with the split it raises ValueError; on
    that table the grouping by sender gives counts without entry and
    [plot_senders_distribution] raises IndexError when it draws them; the
    search on it raises KeyError for want of a Date column, and on a table
    without rows that has Date, Time, Sender and Content it returns the
    table without rows under Date, Sender, Content (for a word that
    compiles, as every plain word does). *)
Theorem load_nothing_retained (fs : filesystem) (file_path text word : string) :
  fs "_chat.txt" = Some text ->
  retained text = [] ->
  plain word = true ->
  load_chat_data fs file_path false = Ok (no_rows loaded_columns)
  /\ load_chat_data fs file_path true = Raise ValueError
  /\ Pd.groupby_size (no_rows loaded_columns) "Sender" = Ok []
  /\ plot_senders_distribution (no_rows loaded_columns) = Raise IndexError
  /\ count_word_usage word (no_rows loaded_columns) = Raise KeyError
  /\ count_word_usage word (no_rows split_columns) = Ok (no_rows search_columns).
Proof.
  intros F R Hp. repeat split.
  - rewrite (ReadFacts.load_opened _ _ _ false F). cbv zeta. now rewrite R.
  - rewrite (ReadFacts.load_opened _ _ _ true F). cbv zeta. now rewrite R.
  - now apply count_word_usage_needs_date.
  - now rewrite (proj1 (count_word_usage_plain word (no_rows split_columns)
                          Hp eq_refl eq_refl eq_refl)).
Qed.

(** The statement at the empty file and the word "hello". *)
Lemma load_nothing_retained_witness :
  load_chat_data (only_chat "") "chat.txt" false = Ok (no_rows loaded_columns)
  /\ load_chat_data (only_chat "") "chat.txt" true = Raise ValueError
  /\ Pd.groupby_size (no_rows loaded_columns) "Sender" = Ok []
  /\ plot_senders_distribution (no_rows loaded_columns) = Raise IndexError
  /\ count_word_usage "hello" (no_rows loaded_columns) = Raise KeyError
  /\ count_word_usage "hello" (no_rows split_columns) = Ok (no_rows search_columns).
Proof.
  exact (load_nothing_retained (only_chat "") "chat.txt" "" "hello"
           eq_refl eq_refl eq_refl).
Defined.

(** C7 as stated fails: on the empty file the loader with the split (the
    default) raises; on the table loaded without the split the chart of
    the senders raises, and the search raises too. *)
Lemma load_empty_file_counterexample :
  load_chat_data (only_chat "") "_chat.txt" true = Raise ValueError
  /\ load_chat_data (only_chat "") "_chat.txt" false = Ok (no_rows loaded_columns)
  /\ plot_senders_distribution (no_rows loaded_columns) = Raise IndexError
  /\ count_word_usage "hello" (no_rows loaded_columns) = Raise KeyError.
Proof. repeat split. Qed.

(** The statement of C2 at the line of the counterexample. *)
Lemma parse_message_first_separators_witness :
  reads_as (PyStr.strip "[a]b] S: C") "a]b" "S" "C"
  /\ _parse_message "[a]b] S: C" = (Some "a]b", Some "S", Some "C").
Proof.
  assert (R : reads_as (PyStr.strip "[a]b] S: C") "a]b" "S" "C")
    by (repeat split; reflexivity).
  split; [exact R|].
  exact (proj1 (parse_message_first_separators "[a]b] S: C") _ _ _ R).
Defined.

(** ** More on [_parse_message] *)

Module ShapeFacts.
Import StrFacts.

Lemma parse_some_reads (line T W C : string) :
  _parse_message line = (Some T, Some W, Some C) ->
  reads_as (PyStr.strip line) T W C.
Proof.
  intro H.
  destruct (ParseFacts.parse_all_or_nothing line)
    as [E|(T' & W' & C' & E & R)]; rewrite E in H; [discriminate|].
  now injection H as <- <- <-.
Qed.

(** Where [index] finds the separator at the end of [pre], [pre] holds
    no occurrence of it. *)
Lemma first_excludes (sep pre tail : string) :
  sep <> "" ->
  index 0 sep (pre +++ sep +++ tail) = Some (String.length pre) ->
  ~ occurs sep pre.
Proof.
  intros Hsep H (a & b & ->).
  rewrite !append_assoc in H.
  destruct (index_app sep a (b +++ sep +++ tail)) as (n & I & Hn).
  rewrite I in H. injection H as ->.
  rewrite !length_append in Hn.
  destruct sep; [congruence|]. simpl in Hn. lia.
Qed.

Lemma lstrip_blank (a s : string) :
  blank a = true -> PyStr.lstrip (a +++ s) = PyStr.lstrip s.
Proof.
  unfold blank. induction a as [|c a IH]; cbn [PyStr.all]; intro H;
    [reflexivity|].
  apply andb_true_iff in H as [Hc H]. simpl. rewrite Hc. now apply IH.
Qed.

Lemma rstrip_of_blank (b : string) : blank b = true -> PyStr.rstrip b = "".
Proof.
  unfold blank. induction b as [|c b IH]; cbn [PyStr.all]; intro H;
    [reflexivity|].
  apply andb_true_iff in H as [Hc H]. simpl. now rewrite (IH H), Hc.
Qed.

Lemma rstrip_blank (s b : string) :
  blank b = true -> PyStr.rstrip (s +++ b) = PyStr.rstrip s.
Proof.
  intro H. induction s as [|c s IH]; simpl.
  - now apply rstrip_of_blank.
  - now rewrite IH.
Qed.

Lemma lstrip_of_blank (b : string) : blank b = true -> PyStr.lstrip b = "".
Proof.
  unfold blank. induction b as [|c b IH]; cbn [PyStr.all]; intro H;
    [reflexivity|].
  apply andb_true_iff in H as [Hc H]. simpl. rewrite Hc. now apply IH.
Qed.

Lemma strip_blank_right (s b : string) :
  blank b = true -> PyStr.strip (s +++ b) = PyStr.strip s.
Proof.
  intro H. unfold PyStr.strip. induction s as [|c s IH].
  - simpl. now rewrite (lstrip_of_blank b H).
  - simpl. destruct (PyStr.isspace c); [exact IH|].
    exact (rstrip_blank (String c s) b H).
Qed.

Lemma strip_padding (a s b : string) :
  blank a = true -> blank b = true ->
  PyStr.strip (a +++ s +++ b) = PyStr.strip s.
Proof.
  intros Ha Hb. unfold PyStr.strip. rewrite (lstrip_blank a _ Ha).
  exact (strip_blank_right s b Hb).
Qed.

End ShapeFacts.

(** X1.  Writing the three parts back in the format of the chat gives the
    line that was parsed, white space at its ends removed. *)
Theorem parse_message_rebuilds (line T W C : string) :
  _parse_message line = (Some T, Some W, Some C) ->
  format_message T W C = PyStr.strip line.
Proof.
  intro H. apply ShapeFacts.parse_some_reads in H as (E & _).
  now rewrite E.
Qed.

Lemma parse_message_rebuilds_witness :
  format_message "2023-01-01, 12:00 PM" "Alice" "Hello, how are you?"
  = PyStr.strip "  [2023-01-01, 12:00 PM] Alice: Hello, how are you?  ".
Proof.
  exact (parse_message_rebuilds
           "  [2023-01-01, 12:00 PM] Alice: Hello, how are you?  "
           _ _ _ eq_refl).
Defined.

(** X2.  What the parser can return: a timestamp without "] " in it, a
    sender without ": " in it, no part with a line feed, and a content
    that is not empty and does not end with white space. *)
Theorem parse_message_parts (line T W C : string) :
  _parse_message line = (Some T, Some W, Some C) ->
  ~ occurs "] " T
  /\ ~ occurs ": " W
  /\ no_newline T /\ no_newline W /\ no_newline C
  /\ C <> ""
  /\ forall a c, C = a +++ String c "" -> PyStr.isspace c = false.
Proof.
  intro H. apply ShapeFacts.parse_some_reads in H as (E & Hnl & IT & IW).
  assert (Hlast : forall a c, C = a +++ String c "" ->
                              PyStr.isspace c = false).
  { intros a c ->.
    apply (StrFacts.rstrip_last (PyStr.lstrip line)
             ("[" +++ T +++ "] " +++ W +++ ": " +++ a) c).
    fold (PyStr.strip line). rewrite E.
    now rewrite !StrFacts.append_assoc. }
  split; [|split].
  - apply (ShapeFacts.first_excludes "] " T (W +++ ": " +++ C));
      [discriminate|exact IT].
  - apply (ShapeFacts.first_excludes ": " W C); [discriminate|exact IW].
  - rewrite E in Hnl.
    destruct (ParseFacts.no_newline_parts _ _ _ Hnl) as (DT & DW & DC).
    rewrite !StrFacts.all_dot_no_newline in DT, DW, DC.
    apply negb_true_iff in DT, DW, DC.
    repeat split; try assumption.
    intros ->.
    assert (S : PyStr.isspace " " = false).
    { apply (StrFacts.rstrip_last (PyStr.lstrip line)
               ("[" +++ T +++ "] " +++ W +++ ":") " ").
      fold (PyStr.strip line). rewrite E.
      now rewrite !StrFacts.append_assoc. }
    discriminate S.
Qed.

Lemma parse_message_parts_witness :
  ~ occurs "] " "a]b"
  /\ ~ occurs ": " "S"
  /\ no_newline "a]b" /\ no_newline "S" /\ no_newline "C: d"
  /\ "C: d" <> ""
  /\ forall a c, "C: d" = a +++ String c "" -> PyStr.isspace c = false.
Proof.
  exact (parse_message_parts "[a]b] S: C: d " _ _ _ eq_refl).
Defined.

(** X3.  White space around the line, the line feed [readlines] leaves
    included, does not change what the parser returns. *)
Theorem parse_message_ignores_padding (a line b : string) :
  blank a = true -> blank b = true ->
  _parse_message (a +++ line +++ b) = _parse_message line.
Proof.
  intros Ha Hb. unfold _parse_message.
  now rewrite (ShapeFacts.strip_padding a line b Ha Hb).
Qed.

Lemma parse_message_ignores_padding_witness :
  _parse_message ("  " +++ "[1, 2] A: hi" +++ line_feed)
  = _parse_message "[1, 2] A: hi".
Proof.
  exact (parse_message_ignores_padding "  " "[1, 2] A: hi" line_feed
           eq_refl eq_refl).
Defined.

(** ** More on [load_chat_data] and the split *)

Module SplitFacts.

Lemma split_join (sep : ascii) (s : string) :
  String.concat (String sep "") (PyStr.split sep s) = s.
Proof.
  induction s as [|c s IH]; [reflexivity|]. cbn [PyStr.split].
  destruct (StrFacts.split_nonempty sep s) as (p & ps & E).
  rewrite E in *. rewrite <- IH.
  destruct (Ascii.eqb_spec c sep) as [->|]; [reflexivity|].
  destruct ps; reflexivity.
Qed.

Lemma split_parts_free (sep : ascii) (s : string) :
  Forall (fun p => PyStr.mem sep p = false) (PyStr.split sep s).
Proof.
  induction s as [|c s IH]; [repeat constructor|]. cbn [PyStr.split].
  destruct (Ascii.eqb_spec c sep) as [->|N].
  - constructor; [reflexivity|exact IH].
  - destruct (PyStr.split sep s) as [|p ps]; [repeat constructor|].
    + cbn. apply Ascii.eqb_neq in N. now rewrite Ascii.eqb_sym, N.
    + apply Forall_cons_iff in IH as [Hp Hps]. constructor; [|exact Hps].
      cbn. apply Ascii.eqb_neq in N. now rewrite Ascii.eqb_sym, N.
Qed.

Lemma split_one (sep : ascii) (s a : string) :
  PyStr.split sep s = [a] -> s = a /\ PyStr.mem sep a = false.
Proof.
  intro E. pose proof (split_join sep s) as J.
  pose proof (split_parts_free sep s) as F. rewrite E in J, F.
  split; [now symmetry|]. now apply Forall_cons_iff in F as [F _].
Qed.

Lemma split_two (sep : ascii) (s a b : string) :
  PyStr.split sep s = [a; b] ->
  s = a +++ String sep b
  /\ PyStr.mem sep a = false /\ PyStr.mem sep b = false.
Proof.
  intro E. pose proof (split_join sep s) as J.
  pose proof (split_parts_free sep s) as F. rewrite E in J, F.
  apply Forall_cons_iff in F as [Fa F]. apply Forall_cons_iff in F as [Fb _].
  split; [now symmetry|]. now split.
Qed.

Lemma below_widest (lines : list string) (line : string) :
  In line lines -> comma_parts line <= widest lines.
Proof.
  unfold widest. induction lines as [|l lines IH]; [contradiction|].
  intros [->|Hin]; cbn [map fold_right]; [lia|].
  specialize (IH Hin). lia.
Qed.

Lemma map2_labels {B : Type} (g : nat * list Pd.cell -> B -> list Pd.cell)
      (xs : list (nat * list Pd.cell)) : forall ys : list B,
  length ys = length xs ->
  map fst (Pd.map2 (fun r v => (fst r, g r v)) xs ys) = map fst xs.
Proof.
  induction xs as [|x xs IH]; intros [|y ys] L; try discriminate;
    [reflexivity|].
  cbn. f_equal. apply IH. now injection L.
Qed.

Lemma set_column_labels (df : Pd.DataFrame) (c : string) (vals : list Pd.cell) :
  length vals = length (Pd.rows df) ->
  map fst (Pd.rows (Pd.set_column df c vals)) = map fst (Pd.rows df).
Proof.
  intro L. unfold Pd.set_column.
  destruct (Pd.position c (Pd.columns df)); cbn [Pd.rows];
    now apply map2_labels.
Qed.

Lemma select_shape (df out : Pd.DataFrame) (cs : list string) :
  Pd.select df cs = Ok out ->
  Pd.columns out = cs /\ map fst (Pd.rows out) = map fst (Pd.rows df).
Proof.
  unfold Pd.select. destruct (forallb _ cs); [|discriminate].
  intro H. injection H as <-. cbn [Pd.columns Pd.rows].
  split; [reflexivity|]. now rewrite map_map.
Qed.

End SplitFacts.

(** X5.  Whenever the split returns a table, that table has the columns
    Date, Time, Sender, Content in this order and the rows of the input
    under the same labels, and it no longer has a Timestamp column:
    splitting it again raises AttributeError. *)
Theorem split_result_shape (df out : Pd.DataFrame) :
  _split_and_reorder_timestamp df = Ok out ->
  Pd.columns out = split_columns
  /\ map fst (Pd.rows out) = map fst (Pd.rows df)
  /\ _split_and_reorder_timestamp out = Raise AttributeError.
Proof.
  unfold _split_and_reorder_timestamp, Pd.getattr.
  destruct (Pd.position "Timestamp" (Pd.columns df)) as [p|]; [|discriminate].
  cbn [bind]. unfold Pd.setitem.
  destruct (Nat.eqb _ _); [|discriminate].
  cbn [bind length seq combine fold_left fst snd]. intro H.
  apply SplitFacts.select_shape in H as [Hc Hl].
  split; [exact Hc|]. split.
  - rewrite Hl.
    set (parts := Pd.cells (Pd.str_split_expand "," _)).
    assert (Lp : length parts = length (Pd.rows df)).
    { unfold parts. cbn [Pd.str_split_expand Pd.cells].
      now rewrite !length_map. }
    assert (L1 : map fst (Pd.rows (Pd.set_column df "Date"
                                     (map (fun r => nth 0 r None) parts)))
                 = map fst (Pd.rows df)).
    { apply SplitFacts.set_column_labels. now rewrite length_map. }
    rewrite SplitFacts.set_column_labels; [exact L1|].
    transitivity (length (Pd.rows df)).
    + fold parts. now rewrite length_map.
    + apply (f_equal (@length nat)) in L1. now rewrite !length_map in L1.
  - rewrite Hc. reflexivity.
Qed.

Lemma split_result_shape_witness :
  Pd.columns
    {| Pd.columns := split_columns;
       Pd.rows := [(0, [Some "1"; Some " 2"; Some "A"; Some "hi"])] |}
  = split_columns
  /\ map fst [(0, [Some "1"; Some " 2"; Some "A"; Some "hi"])]
     = map fst (Pd.rows (Pd.of_tuples [(Some "1, 2", Some "A", Some "hi")]
                                      loaded_columns))
  /\ _split_and_reorder_timestamp
       {| Pd.columns := split_columns;
          Pd.rows := [(0, [Some "1"; Some " 2"; Some "A"; Some "hi"])] |}
     = Raise AttributeError.
Proof.
  exact (split_result_shape
           (Pd.of_tuples [(Some "1, 2", Some "A", Some "hi")] loaded_columns)
           {| Pd.columns := split_columns;
              Pd.rows := [(0, [Some "1"; Some " 2"; Some "A"; Some "hi"])] |}
           eq_refl).
Defined.

(** X6.  In a table loaded with the split nothing of a timestamp is lost:
    for the row of each retained line, Date holds no comma, and either Time
    is missing and Date is the whole timestamp, or Time holds no comma and
    the timestamp is Date, a comma, Time. *)
Theorem load_split_keeps_timestamp
        (fs : filesystem) (file_path text : string) (df : Pd.DataFrame) :
  fs "_chat.txt" = Some text ->
  load_chat_data fs file_path true = Ok df ->
  Forall2 (fun line r =>
             exists T W C date time,
               _parse_message line = (Some T, Some W, Some C)
               /\ snd r = [Some date; time; Some W; Some C]
               /\ PyStr.mem "," date = false
               /\ match time with
                  | Some t => T = date +++ "," +++ t /\ PyStr.mem "," t = false
                  | None => T = date
                  end)
          (retained text) (Pd.rows df).
Proof.
  intros F H. rewrite (ReadFacts.load_opened fs file_path text true F) in H.
  cbv zeta in H.
  destruct (Nat.eqb (widest (retained text)) 2) eqn:Hw; [|discriminate].
  apply Nat.eqb_eq in Hw. injection H as <-. cbn [Pd.rows].
  apply (ReadFacts.rowwise (fun x => snd (split_row (0, line_cells x)))
           (fun line cells =>
              exists T W C date time,
                _parse_message line = (Some T, Some W, Some C)
                /\ cells = [Some date; time; Some W; Some C]
                /\ PyStr.mem "," date = false
                /\ match time with
                   | Some t => T = date +++ "," +++ t /\ PyStr.mem "," t = false
                   | None => T = date
                   end)).
  apply Forall_forall. intros line Hin.
  pose proof (SplitFacts.below_widest _ _ Hin) as Hle. rewrite Hw in Hle.
  pose proof (ReadFacts.retained_cells (readlines (translate_newlines text)))
    as Hc. fold (retained text) in Hc. rewrite Forall_forall in Hc.
  destruct (Hc line Hin) as (T & W & C & _ & E).
  assert (P : _parse_message line = (Some T, Some W, Some C)).
  { unfold line_cells in E. destruct (_parse_message line) as [[t w] c].
    now injection E as -> -> ->. }
  unfold comma_parts in Hle. rewrite P in Hle. cbn [fst] in Hle.
  exists T, W, C. rewrite E. unfold split_row.
  cbn [fst snd nth Pd.split_cell].
  destruct (PyStr.split "," T) as [|a [|b [|c ps]]] eqn:S.
  - destruct (StrFacts.split_nonempty "," T) as (p & ps & S').
    congruence.
  - apply SplitFacts.split_one in S as [-> Ha].
    exists a, None. cbn. auto.
  - apply SplitFacts.split_two in S as (-> & Ha & Hb).
    exists a, (Some b). cbn. auto.
  - cbn in Hle. lia.
Qed.

Lemma load_split_keeps_timestamp_witness :
  Forall2 (fun line r =>
             exists T W C date time,
               _parse_message line = (Some T, Some W, Some C)
               /\ snd r = [Some date; time; Some W; Some C]
               /\ PyStr.mem "," date = false
               /\ match time with
                  | Some t => T = date +++ "," +++ t /\ PyStr.mem "," t = false
                  | None => T = date
                  end)
          (retained ("[a,b] X: hi" +++ line_feed +++ "[c] Y: yo"))
          [(0, [Some "a"; Some "b"; Some "X"; Some "hi"]);
           (1, [Some "c"; None; Some "Y"; Some "yo"])].
Proof.
  exact (load_split_keeps_timestamp
           (only_chat ("[a,b] X: hi" +++ line_feed +++ "[c] Y: yo"))
           "chat.txt" ("[a,b] X: hi" +++ line_feed +++ "[c] Y: yo")
           _ eq_refl eq_refl).
Defined.

(** ** More on [count_word_usage] *)

Module FindMore.

Lemma ci_prefixb_lower (w1 : string) : forall w2 text,
  PyStr.lower_str w1 = PyStr.lower_str w2 ->
  ci_prefixb w1 text = ci_prefixb w2 text.
Proof.
  induction w1 as [|a w1 IH]; intros [|b w2] text E; try discriminate;
    [reflexivity|].
  cbn in E. injection E as Eab E. destruct text as [|c text]; [reflexivity|].
  cbn [ci_prefixb]. now rewrite Eab, (IH w2 text E).
Qed.

Lemma ci_containsb_lower (w1 w2 text : string) :
  PyStr.lower_str w1 = PyStr.lower_str w2 ->
  ci_containsb w1 text = ci_containsb w2 text.
Proof.
  intro E. induction text as [|c text IH]; cbn [ci_containsb];
    rewrite (ci_prefixb_lower w1 w2 _ E); [reflexivity|now rewrite IH].
Qed.

(** A search that returns found its three columns and a pattern that
    compiles. *)
Lemma count_ok (word : string) (df out : Pd.DataFrame) :
  count_word_usage word df = Ok out ->
  exists r,
    Re.compile word = Re.Compiled r
    /\ Pd.has_column df "Date" = true
    /\ Pd.has_column df "Sender" = true
    /\ Pd.has_column df "Content" = true.
Proof.
  unfold count_word_usage, Pd.getitem, Pd.has_column.
  destruct (Pd.position "Content" (Pd.columns df)) as [p|]; [|discriminate].
  cbn [bind]. unfold Pd.str_contains.
  destruct (Re.compile word) as [r| |]; [|discriminate..].
  cbn [bind]. unfold Pd.select, Pd.getitem_mask, Pd.has_column.
  cbn [forallb Pd.columns].
  destruct (Pd.position "Date" (Pd.columns df)); [|discriminate].
  destruct (Pd.position "Sender" (Pd.columns df)); [|discriminate].
  intros _. now exists r.
Qed.

Lemma filter_all {A : Type} (f : A -> bool) (l : list A) :
  Forall (fun x => f x = true) l -> filter f l = l.
Proof.
  induction 1 as [|x l Hx _ IH]; [reflexivity|].
  cbn. now rewrite Hx, IH.
Qed.






End FindMore.

(** X7.  The search does not look at the letter case of the word: two
    plain words of code points below 256 whose characters agree, one by
    one, once put in lower case give the same answer on every table. *)
Theorem count_word_usage_word_case (w1 w2 : string) (df : Pd.DataFrame) :
  plain w1 = true -> plain w2 = true ->
  PyStr.lower_str w1 = PyStr.lower_str w2 ->
  count_word_usage w1 df = count_word_usage w2 df.
Proof.
  intros P1 P2 E. unfold count_word_usage.
  destruct (Pd.getitem df "Content") as [col| |]; [|reflexivity..].
  cbn [bind]. unfold Pd.str_contains.
  rewrite (FindFacts.compile_literal w1 P1), (FindFacts.compile_literal w2 P2).
  replace (map _ col)
    with (map (fun x : Pd.cell => match x with
                                  | Some s => Re.search true (literal w2) s
                                  | None => false
                                  end) col); [reflexivity|].
  apply map_ext. intros [s|]; [|reflexivity].
  rewrite !FindFacts.search_literal. symmetry.
  now apply FindMore.ci_containsb_lower.
Qed.

Lemma count_word_usage_word_case_witness :
  count_word_usage "HeLLo" greetings = count_word_usage "hello" greetings.
Proof.
  exact (count_word_usage_word_case "HeLLo" "hello" greetings
           eq_refl eq_refl eq_refl).
Defined.





(** X10.  The search runs on what the loader returns only when the table
    was split: for a plain word it raises KeyError on every table loaded
    without the split, and on every table loaded with the split it returns
    the rows whose content contains the word. *)
Theorem search_after_load
        (fs : filesystem) (file_path word : string) (b : bool)
        (df : Pd.DataFrame) :
  plain word = true ->
  load_chat_data fs file_path b = Ok df ->
  count_word_usage word df
  = if b
    then Ok {| Pd.columns := search_columns;
               Pd.rows := map (hit split_columns)
                              (filter (mentions split_columns word)
                                      (Pd.rows df)) |}
    else Raise KeyError.
Proof.
  intros Hp H.
  destruct (fs "_chat.txt") as [text|] eqn:F.
  2:{ unfold load_chat_data in H. rewrite F in H. discriminate. }
  rewrite (ReadFacts.load_opened fs file_path text b F) in H. cbv zeta in H.
  destruct b.
  - destruct (Nat.eqb _ 2); [|discriminate]. injection H as <-.
    match goal with
    | |- count_word_usage word ?t = _ =>
        exact (proj1 (count_word_usage_plain word t Hp eq_refl eq_refl eq_refl))
    end.
  - injection H as <-.
    now apply count_word_usage_needs_date.
Qed.

Lemma search_after_load_witness :
  count_word_usage "hi"
    {| Pd.columns := split_columns;
       Pd.rows := [(0, [Some "1"; Some " 2"; Some "A"; Some "Hi all"])] |}
  = Ok {| Pd.columns := search_columns;
          Pd.rows := [(0, [Some "1"; Some "A"; Some "Hi all"])] |}.
Proof.
  exact (search_after_load (only_chat "[1, 2] A: Hi all") "chat.txt" "hi"
           true _ eq_refl eq_refl).
Defined.

(** ** More on the counts by sender *)

Module TallyFacts.

Lemma sorted_nodup (l : list string) : StronglySorted str_lt l -> NoDup l.
Proof.
  induction 1 as [|x l _ IH Hx]; constructor; [|exact IH].
  intro Hin. rewrite Forall_forall in Hx.
  exact (GroupFacts.str_lt_irrefl x (Hx x Hin)).
Qed.

Lemma sum_pointwise {A : Type} (f g : A -> nat) (l : list A) :
  list_sum (map (fun x => f x + g x) l)
  = list_sum (map f l) + list_sum (map g l).
Proof.
  unfold list_sum. induction l as [|x l IH]; [reflexivity|].
  cbn [map fold_right]. rewrite IH. lia.
Qed.

Lemma sum_cons (x : nat) (l : list nat) : list_sum (x :: l) = x + list_sum l.
Proof. reflexivity. Qed.

Lemma sum_absent (v : string) (keys : list string) :
  ~ In v keys ->
  list_sum (map (fun k => if string_dec v k then 1 else 0) keys) = 0.
Proof.
  induction keys as [|k keys IH]; [reflexivity|]. intro H.
  cbn [map]. rewrite sum_cons.
  destruct (string_dec v k) as [->|]; [exfalso; apply H; now left|].
  apply IH. intro Hin. apply H. now right.
Qed.

Lemma sum_once (v : string) (keys : list string) :
  NoDup keys -> In v keys ->
  list_sum (map (fun k => if string_dec v k then 1 else 0) keys) = 1.
Proof.
  induction 1 as [|k keys Hk _ IH]; [contradiction|]. intro Hin.
  cbn [map]. rewrite sum_cons.
  destruct (string_dec v k) as [->|N].
  - now rewrite (sum_absent k keys Hk).
  - destruct Hin as [E|Hin]; [congruence|]. now rewrite IH.
Qed.

(** Over keys without repetition that cover the values, the counts add up
    to the number of values. *)
Lemma sum_counts (keys : list string) (vals : list string) :
  NoDup keys -> (forall v, In v vals -> In v keys) ->
  list_sum (map (count_occ string_dec vals) keys) = length vals.
Proof.
  intro Hnd. induction vals as [|v vals IH]; intro Hcov.
  - clear Hnd Hcov. induction keys as [|k keys IH]; [reflexivity|].
    cbn [map count_occ]. rewrite sum_cons. exact IH.
  - rewrite (map_ext _ (fun k => (if string_dec v k then 1 else 0)
                                 + count_occ string_dec vals k)).
    + rewrite sum_pointwise, sum_once, IH; [reflexivity| |assumption|].
      * intros x Hx. apply Hcov. now right.
      * apply Hcov. now left.
    + intro k. cbn. now destruct (string_dec v k).
Qed.

Lemma present_length (p : nat) (cols : list string)
      (rows : list (nat * list Pd.cell)) :
  Pd.position "Sender" cols = Some p ->
  length (Pd.present (map (fun r => nth p (snd r) None) rows))
  = length (filter (has_sender cols) rows).
Proof.
  intro P. induction rows as [|r rows IH]; [reflexivity|].
  cbn [map filter]. unfold has_sender at 1.
  rewrite (FindFacts.at_position _ _ _ (snd r) P).
  unfold Pd.cell in *.
  destruct (nth p (snd r) None); cbn; now rewrite IH.
Qed.

(** The counts of a table add up to the number of its rows that have a
    sender. *)
Lemma counts_total (df : Pd.DataFrame) (counts : list (string * nat)) :
  Pd.groupby_size df "Sender" = Ok counts ->
  list_sum (map snd counts)
  = length (filter (has_sender (Pd.columns df)) (Pd.rows df)).
Proof.
  unfold Pd.groupby_size, Pd.getitem.
  destruct (Pd.position "Sender" (Pd.columns df)) as [p|] eqn:P;
    [|discriminate].
  cbn [bind]. intro H. injection H as <-.
  rewrite map_map. cbn [snd].
  rewrite sum_counts.
  - now apply present_length.
  - apply sorted_nodup, GroupFacts.keys_sorted.
  - intros v Hv. now apply GroupFacts.keys_in.
Qed.

(** Every row of a loaded table has a sender. *)
Lemma loaded_has_sender (fs : filesystem) (file_path : string) (b : bool)
      (df : Pd.DataFrame) :
  load_chat_data fs file_path b = Ok df ->
  Pd.has_column df "Sender" = true
  /\ Forall (fun r => has_sender (Pd.columns df) r = true) (Pd.rows df).
Proof.
  intro H. destruct (fs "_chat.txt") as [text|] eqn:F.
  2:{ unfold load_chat_data in H. rewrite F in H. discriminate. }
  rewrite (ReadFacts.load_opened fs file_path text b F) in H. cbv zeta in H.
  pose proof (ReadFacts.retained_cells (readlines (translate_newlines text)))
    as Hc. fold (retained text) in Hc.
  destruct b.
  - destruct (Nat.eqb _ 2); [|discriminate]. injection H as <-.
    split; [reflexivity|]. cbn [Pd.columns Pd.rows].
    apply (ReadFacts.rowwise_all
             (fun x => snd (split_row (0, line_cells x)))
             (fun cells => is_not_None
                             (Pd.at_column split_columns "Sender" cells) = true)).
    eapply Forall_impl; [|exact Hc].
    intros line (T & W & C & _ & E). now rewrite E.
  - injection H as <-. split; [reflexivity|]. cbn [Pd.columns Pd.rows].
    apply (ReadFacts.rowwise_all line_cells
             (fun cells => is_not_None
                             (Pd.at_column loaded_columns "Sender" cells) = true)).
    eapply Forall_impl; [|exact Hc].
    intros line (T & W & C & _ & E). now rewrite E.
Qed.

Lemma enumerate_nth {A : Type} (l : list A) : forall k i,
  nth_error (enumerate k l) i
  = option_map (fun x => (k + i, x)) (nth_error l i).
Proof.
  induction l as [|x l IH]; intros k [|i]; cbn; try reflexivity.
  - now rewrite Nat.add_0_r.
  - rewrite IH. now rewrite Nat.add_succ_r.
Qed.

End TallyFacts.

(** X11.  The counts by sender add up to the number of rows that have a
    sender: every such row is counted once, a row without sender is not
    counted. *)
Theorem sender_counts_total (df : Pd.DataFrame) (rep : report) :
  plot_senders_distribution df = Ok rep ->
  list_sum (map snd (sender_message_count rep))
  = length (filter (has_sender (Pd.columns df)) (Pd.rows df)).
Proof.
  unfold plot_senders_distribution.
  destruct (Pd.groupby_size df "Sender") as [counts| |] eqn:G;
    [|discriminate..].
  cbn [bind]. intro H.
  assert (H' : Ok {| sender_message_count := counts;
                     annotations := map (fun iv => (snd iv, snd iv, fst iv))
                                        (enumerate 0 (map snd counts)) |}
               = Ok rep)
    by (destruct counts; [discriminate H|exact H]).
  clear H. injection H' as <-. cbn [sender_message_count].
  now apply TallyFacts.counts_total.
Qed.

Lemma sender_counts_total_witness :
  list_sum (map snd [("Alice", 2); ("Bob", 1)])
  = length (filter (has_sender (Pd.columns greetings)) (Pd.rows greetings)).
Proof.
  exact (sender_counts_total greetings
           {| sender_message_count := [("Alice", 2); ("Bob", 1)];
              annotations := [(2, 2, 0); (1, 1, 1)] |} eq_refl).
Defined.

(** X12.  On every table the loader returns, with or without the split,
    the grouping by sender succeeds and its counts add up to the number of
    rows of the table: every loaded message is counted under one sender. *)
Theorem counts_after_load
        (fs : filesystem) (file_path : string) (b : bool) (df : Pd.DataFrame) :
  load_chat_data fs file_path b = Ok df ->
  exists counts,
    Pd.groupby_size df "Sender" = Ok counts
    /\ list_sum (map snd counts) = length (Pd.rows df).
Proof.
  intro H. destruct (TallyFacts.loaded_has_sender _ _ _ _ H) as [Hcol Hall].
  destruct (Pd.groupby_size df "Sender") as [counts| |] eqn:G.
  - exists counts. split; [reflexivity|].
    rewrite (TallyFacts.counts_total df counts G).
    now rewrite (FindMore.filter_all _ _ Hall).
  - exfalso. unfold Pd.groupby_size, Pd.getitem, Pd.has_column in *.
    destruct (Pd.position "Sender" (Pd.columns df)); discriminate.
  - exfalso. unfold Pd.groupby_size, Pd.getitem, Pd.has_column in *.
    destruct (Pd.position "Sender" (Pd.columns df)); discriminate.
Qed.

Lemma counts_after_load_witness :
  exists counts,
    Pd.groupby_size
      {| Pd.columns := loaded_columns;
         Pd.rows := [(0, [Some "1, 2"; Some "A"; Some "hi"]);
                     (1, [Some "3, 4"; Some "B"; Some "yo"])] |} "Sender"
    = Ok counts
    /\ list_sum (map snd counts) = 2.
Proof.
  exact (counts_after_load
           (only_chat ("[1, 2] A: hi" +++ line_feed +++ "junk" +++ line_feed
                       +++ "[3, 4] B: yo"))
           "chat.txt" false _ eq_refl).
Defined.

(** X13.  Each bar gets its own count as annotation: the annotation of
    the i-th sender (in the sorted order of the counts) shows that sender's
    count, at x = the count and y = i, and there is one annotation per
    sender. *)
Theorem annotations_follow_counts (df : Pd.DataFrame) (rep : report) :
  plot_senders_distribution df = Ok rep ->
  length (annotations rep) = length (sender_message_count rep)
  /\ forall i s n,
       nth_error (sender_message_count rep) i = Some (s, n) ->
       nth_error (annotations rep) i = Some (n, n, i).
Proof.
  unfold plot_senders_distribution.
  destruct (Pd.groupby_size df "Sender") as [counts| |]; [|discriminate..].
  cbn [bind]. intro H.
  assert (H' : Ok {| sender_message_count := counts;
                     annotations := map (fun iv => (snd iv, snd iv, fst iv))
                                        (enumerate 0 (map snd counts)) |}
               = Ok rep)
    by (destruct counts; [discriminate H|exact H]).
  clear H. injection H' as <-.
  cbn [annotations sender_message_count]. split.
  - rewrite length_map. generalize 0.
    induction counts as [|c counts IH]; intro k; [reflexivity|].
    cbn. now rewrite IH.
  - intros i s n Hi. rewrite nth_error_map, TallyFacts.enumerate_nth.
    rewrite nth_error_map, Hi. reflexivity.
Qed.

Lemma annotations_follow_counts_witness :
  length [(2, 2, 0); (1, 1, 1)] = length [("Alice", 2); ("Bob", 1)]
  /\ forall i s n,
       nth_error [("Alice", 2); ("Bob", 1)] i = Some (s, n) ->
       nth_error [(2, 2, 0); (1, 1, 1)] i = Some (n, n, i).
Proof.
  exact (annotations_follow_counts greetings
           {| sender_message_count := [("Alice", 2); ("Bob", 1)];
              annotations := [(2, 2, 0); (1, 1, 1)] |} eq_refl).
Defined.

(** ** Lines without body, tables the split accepts *)

Module EdgeFacts.
Import StrFacts.

Lemma index_none (sep s : string) : index 0 sep s = None -> ~ occurs sep s.
Proof.
  intros H (a & b & ->).
  destruct (index_app sep a b) as (n & I & _). congruence.
Qed.

Lemma rstrip_fixed (a : string) (c : ascii) :
  PyStr.isspace c = false ->
  PyStr.rstrip (a +++ String c "") = a +++ String c "".
Proof.
  intro Hc. induction a as [|d a IH]; simpl.
  - now rewrite Hc.
  - rewrite IH. now destruct a.
Qed.

Lemma strip_fixed (a : string) (c d : ascii) :
  PyStr.isspace c = false -> PyStr.isspace d = false ->
  PyStr.strip (String c (a +++ String d "")) = String c (a +++ String d "").
Proof.
  intros Hc Hd. unfold PyStr.strip. cbn [PyStr.lstrip]. rewrite Hc.
  exact (rstrip_fixed (String c a) d Hd).
Qed.

Lemma position_last (x c : string) (cols : list string) :
  Pd.position x (cols ++ [c])
  = match Pd.position x cols with
    | Some p => Some p
    | None => if String.eqb x c then Some (length cols) else None
    end.
Proof.
  induction cols as [|d cols IH]; cbn [app Pd.position length].
  - now destruct (String.eqb x c).
  - destruct (String.eqb x d); [reflexivity|]. rewrite IH.
    destruct (Pd.position x cols); [reflexivity|].
    now destruct (String.eqb x c).
Qed.

(** Assigning a column adds its name to the columns and removes none. *)
Lemma has_after_set (df : Pd.DataFrame) (c x : string) (vals : list Pd.cell) :
  Pd.has_column (Pd.set_column df c vals) x
  = String.eqb x c || Pd.has_column df x.
Proof.
  unfold Pd.has_column, Pd.set_column.
  destruct (Pd.position c (Pd.columns df)) as [p|] eqn:P; cbn [Pd.columns].
  - destruct (String.eqb_spec x c) as [->|]; [now rewrite P|reflexivity].
  - rewrite position_last.
    destruct (Pd.position x (Pd.columns df)) eqn:Px.
    + now rewrite orb_true_r.
    + destruct (String.eqb x c); reflexivity.
Qed.

End EdgeFacts.

(** X14.  A message without body is not parsed: when the only ": " of the
    line is the one after the sender, and only white space follows it,
    stripping removes the blank after the colon and the parser returns
    three [None]. *)
Theorem empty_body_rejected (T W ws : string) :
  blank ws = true ->
  index 0 ": " (T +++ "] " +++ W +++ ":") = None ->
  _parse_message (format_message T W ws) = (None, None, None).
Proof.
  intros Hws Hidx.
  destruct (ParseFacts.parse_all_or_nothing (format_message T W ws))
    as [E|(T' & W' & C' & _ & (E & _))]; [exact E|exfalso].
  assert (S : PyStr.strip (format_message T W ws)
              = "[" +++ T +++ "] " +++ W +++ ":").
  { unfold format_message.
    transitivity (PyStr.strip (String "[" ((T +++ "] " +++ W) +++ String ":" "")
                               +++ (" " +++ ws))).
    - f_equal. cbn [String.append]. f_equal.
      now rewrite !StrFacts.append_assoc.
    - rewrite ShapeFacts.strip_blank_right by exact Hws.
      rewrite EdgeFacts.strip_fixed by reflexivity.
      cbn [String.append]. f_equal. now rewrite !StrFacts.append_assoc. }
  rewrite S in E. injection E as E.
  apply (EdgeFacts.index_none _ _ Hidx).
  exists (T' +++ "] " +++ W'), C'.
  rewrite !StrFacts.append_assoc. exact E.
Qed.

Lemma empty_body_rejected_witness :
  _parse_message (format_message "1, 2" "A" " ") = (None, None, None).
Proof.
  exact (empty_body_rejected "1, 2" "A" " " eq_refl eq_refl).
Defined.

(** X15.  The split returns a table exactly when the input has the
    columns Timestamp, Sender and Content and the longest split of its
    timestamps has two parts. *)
Theorem split_succeeds_iff (df : Pd.DataFrame) :
  (exists out, _split_and_reorder_timestamp df = Ok out)
  <-> Pd.has_column df "Timestamp" = true
      /\ Pd.has_column df "Sender" = true
      /\ Pd.has_column df "Content" = true
      /\ Pd.width (Pd.str_split_expand "," (timestamps df)) = 2.
Proof.
  unfold _split_and_reorder_timestamp, Pd.getattr, timestamps.
  unfold Pd.has_column at 1.
  destruct (Pd.position "Timestamp" (Pd.columns df)) as [p|] eqn:P.
  2:{ split; [intros [out H]; discriminate|intros [H _]; discriminate]. }
  rewrite (map_ext
             (fun r : nat * list Pd.cell =>
                Pd.at_column (Pd.columns df) "Timestamp" (snd r))
             (fun r => nth p (snd r) None))
    by (intro r; apply (FindFacts.at_position _ _ _ _ P)).
  cbn [bind]. unfold Pd.setitem. cbn [length].
  destruct (Nat.eqb_spec (Pd.width (Pd.str_split_expand ","
              (map (fun r => nth p (snd r) None) (Pd.rows df)))) 2) as [Hw|Hw].
  2:{ split; [intros [out H]; discriminate|intros (_ & _ & _ & H); destruct (Hw H)]. }
  cbn [bind seq combine fold_left fst snd]. unfold Pd.select.
  cbn [forallb]. rewrite !EdgeFacts.has_after_set.
  cbn [String.eqb Ascii.eqb Bool.eqb orb andb].
  destruct (Pd.has_column df "Sender"), (Pd.has_column df "Content");
    cbn [andb]; split;
      try (intros [out H]; discriminate H);
      try (intros (_ & HS & HC & _); discriminate);
      try (intros _; repeat split; exact Hw);
      try (intros _; eexists; reflexivity).
Qed.

(** ** When the chart of the senders fails *)

Module DrawFacts.


End DrawFacts.

